(** * Campaign-statistics job: a shallow embedding of [app.py]

    The service has one handler, [run_job], which validates the JSON
    payload, pulls campaign rows from the advertising API
    ([fetch_google_ads_data]) and appends them to a warehouse table
    ([load_data_to_bigquery]).  The handler is embedded as a function in a
    small exception-and-trace monad; the two vendor clients are oracles
    carried by an environment record, and every call made to them is
    recorded in the trace. *)

From Stdlib Require Import ZArith String Ascii List Lia QArith Qabs.
From Stdlib Require Import DecimalString DecimalPos DecimalZ.
From Stdlib Require Import Floats.SpecFloat.
From stdpp Require Import base option gmap strings list.

Set Warnings "-register-all".
Local Open Scope Z_scope.

(* ================================================================= *)
(** ** The Python values the handler manipulates *)

Module Py.

(** What [json.loads] can produce, which is also what a row handed to the
    warehouse client is made of.  A [dict] with [str] keys is a finite map;
    a [float] is an IEEE-754 binary64 number. *)
Inductive pyval : Type :=
| PyNone
| PyBool (b : bool)
| PyInt (z : Z)
| PyFloat (f : spec_float)
| PyStr (s : string)
| PyList (l : list pyval)
| PyDict (d : gmap string pyval).

(** An exception object: its class name and what [str(e)] prints.  Only
    classes deriving from [Exception] are modelled, which is what the
    interpreter and the two clients raise on failure and what the
    handler's [except Exception] catches. *)
Record exn : Type := Exn { exn_class : string; exn_str : string }.

Definition TypeError (msg : string) : exn := Exn "TypeError" msg.
Definition KeyError (msg : string) : exn := Exn "KeyError" msg.
Definition ZeroDivisionError (msg : string) : exn := Exn "ZeroDivisionError" msg.
Definition OverflowError (msg : string) : exn := Exn "OverflowError" msg.
(** [Exception(msg)], as raised by the loader. *)
Definition Exception (msg : string) : exn := Exn "Exception" msg.

(** [type(v).__name__] *)
Definition type_name (v : pyval) : string :=
  match v with
  | PyNone => "NoneType"
  | PyBool _ => "bool"
  | PyInt _ => "int"
  | PyFloat _ => "float"
  | PyStr _ => "str"
  | PyList _ => "list"
  | PyDict _ => "dict"
  end.

(** Truth value testing, as used by [not x] and [if x]. *)
Definition truthy (v : pyval) : bool :=
  match v with
  | PyNone => false
  | PyBool b => b
  | PyInt z => negb (z =? 0)
  | PyFloat (S754_zero _) => false
  | PyFloat _ => true
  | PyStr s => negb (String.eqb s "")
  | PyList l => match l with [] => false | _ :: _ => true end
  | PyDict d => negb (bool_decide (d = ∅))
  end.

(** [k in s] for two strings: [k] occurs in [s] as a contiguous run. *)
Fixpoint is_infix (k s : string) : bool :=
  String.prefix k s ||
  match s with
  | EmptyString => false
  | String _ s' => is_infix k s'
  end.

Definition is_str (k : string) (v : pyval) : bool :=
  match v with
  | PyStr s => String.eqb s k
  | _ => false
  end.

(** ['k' in c]: key membership for a dict, element membership for a list,
    substring test for a string; the other values are not containers.
    (Interpreter messages are worded as CPython 3.11 words them.) *)
Definition contains (k : string) (c : pyval) : exn + bool :=
  match c with
  | PyDict d => inr (bool_decide (is_Some (d !! k)))
  | PyList l => inr (existsb (is_str k) l)
  | PyStr s => inr (is_infix k s)
  | _ => inl (TypeError ("argument of type '" +:+ type_name c +:+ "' is not iterable"))
  end.

(** [c['k']] with a string subscript. *)
Definition getitem (c : pyval) (k : string) : exn + pyval :=
  match c with
  | PyDict d =>
      match d !! k with
      | Some v => inr v
      | None => inl (KeyError ("'" +:+ k +:+ "'"))
      end
  | PyList _ => inl (TypeError "list indices must be integers or slices, not str")
  | PyStr _ => inl (TypeError "string indices must be integers, not 'str'")
  | _ => inl (TypeError ("'" +:+ type_name c +:+ "' object is not subscriptable"))
  end.

(** [str(n)] for an integer. *)
Definition str_int (z : Z) : string := NilZero.string_of_int (Z.to_int z).

(** Binary64 parameters. *)
Definition prec : Z := 53.
Definition emax : Z := 1024.

(** An integer as an (unrounded) sign, mantissa and exponent 0. *)
Definition Z2SF (z : Z) : spec_float :=
  match z with
  | Z0 => S754_zero false
  | Zpos p => S754_finite false p 0
  | Zneg p => S754_finite true p 0
  end.

(** [a / b] on two integers: true division, giving the binary64 number
    nearest to the quotient; a zero divisor and a quotient that rounds
    beyond the binary64 range are errors. *)
Definition truediv (a b : Z) : exn + spec_float :=
  if b =? 0 then inl (ZeroDivisionError "division by zero")
  else match SFdiv prec emax (Z2SF a) (Z2SF b) with
       | S754_infinity _ =>
           inl (OverflowError "integer division result too large for a float")
       | f => inr f
       end.

(** [len(l)] *)
Definition len {A} (l : list A) : Z := Z.of_nat (length l).

(** The value of an environment variable read with [os.environ.get]. *)
Definition of_environ (o : option string) : pyval :=
  match o with
  | Some s => PyStr s
  | None => PyNone
  end.

Section Format.
(** [repr] of floats and containers is the interpreter's business. *)
Variable py_repr : pyval -> string.

(** [f"{v}"], that is [format(v, "")]. *)
Definition format (v : pyval) : string :=
  match v with
  | PyStr s => s
  | PyInt z => str_int z
  | PyBool true => "True"
  | PyBool false => "False"
  | PyNone => "None"
  | PyFloat _ | PyList _ | PyDict _ => py_repr v
  end.
End Format.

(** The number a finite binary64 value denotes. *)
Definition SF2Q (f : spec_float) : option Q :=
  match f with
  | S754_zero _ => Some 0%Q
  | S754_finite s m e =>
      let n := if s then Zneg m else Zpos m in
      Some (match e with
            | Z0 => inject_Z n
            | Zpos p => inject_Z (n * 2 ^ e)
            | Zneg p => Qmake n (2 ^ p)
            end)
  | _ => None
  end.

End Py.
Import Py.

(* ================================================================= *)
(** ** What the advertising API returns *)

Module Ads.

(** A proto-plus enum member: [.name] and [.value]. *)
Record Enum : Type := { name : string; value : Z }.

Record Campaign : Type := { campaign_id : Z }.
Record Customer : Type := { customer_id : Z }.
Record Metrics : Type := { cost_micros : Z }.
Record Segments : Type :=
  { date : string; device : Enum; ad_network_type : Enum }.

(** One [GoogleAdsRow] of the report. *)
Record GoogleAdsRow : Type :=
  { campaign : Campaign; customer : Customer;
    metrics : Metrics; segments : Segments }.

(** One [SearchGoogleAdsStreamResponse]. *)
Record Batch : Type := { results : list GoogleAdsRow }.

(** The iterator [search_stream] hands back: batches arrive one at a
    time, and the platform may fail while the stream is being read. *)
Inductive Stream : Type :=
| StreamEnd
| StreamBatch (b : Batch) (rest : Stream)
| StreamRaise (e : exn).

Fixpoint stream_of (bs : list Batch) : Stream :=
  match bs with
  | [] => StreamEnd
  | b :: bs' => StreamBatch b (stream_of bs')
  end.

(** [cost_micros] is an [int64] field of the protocol. *)
Definition int64 (z : Z) : Prop := - 2 ^ 63 <= z < 2 ^ 63.

Definition wf_row (r : GoogleAdsRow) : Prop := int64 (cost_micros (metrics r)).
Definition wf_batch (b : Batch) : Prop := Forall wf_row (results b).

End Ads.

(* ================================================================= *)
(** ** Environment, trace and the handler's monad *)

(** A row as the warehouse client receives it: a [dict]. *)
Abbreviation Row := (gmap string pyval).

(** Process configuration (read once from the environment) and the two
    vendor clients. *)
Record Env : Type := {
  GCP_PROJECT : option string;
  BQ_DATASET : option string;
  BQ_TABLE : option string;
  ADS_CUSTOMER_ID : option string;
  ADS_CONFIG_STRING : option string;
  (** [yaml.safe_load], [GoogleAdsClient.load_from_dict] and
      [get_service("GoogleAdsService")] on the configuration string *)
  get_service : option string -> exn + unit;
  (** [ga_service.search_stream(customer_id=..., query=...)] *)
  search_stream : option string -> string -> exn + Ads.Stream;
  (** [bq_client.insert_rows_json(table_id, rows)]: the per-row errors *)
  insert_rows_json : string -> list Row -> exn + list pyval
}.

(** What the handler does to the outside world, in order. *)
Inductive event : Type :=
| Print (line : string)
| GetService (config : option string)
| SearchStream (customer_id : option string) (query : string)
| InsertRowsJson (table_id : string) (rows : list Row).

Definition is_search_call (ev : event) : bool :=
  match ev with
  | SearchStream _ _ => true
  | _ => false
  end.

Definition is_client_call (ev : event) : bool :=
  match ev with
  | GetService _ => true
  | _ => false
  end.

Definition is_loader_call (ev : event) : bool :=
  match ev with
  | InsertRowsJson _ _ => true
  | _ => false
  end.

Definition calls (p : event -> bool) (t : list event) : nat :=
  length (List.filter p t).

(** A computation extends the trace and either raises or returns. *)
Definition M (A : Type) : Type := list event -> list event * (exn + A).

#[export] Instance M_ret : MRet M := fun A x t => (t, inr x).
#[export] Instance M_bind : MBind M := fun A B f m t =>
  match m t with
  | (t', inr x) => f x t'
  | (t', inl e) => (t', inl e)
  end.

Definition raise {A} (e : exn) : M A := fun t => (t, inl e).
Definition lift {A} (r : exn + A) : M A := fun t => (t, r).
Definition emit (ev : event) : M unit := fun t => (t ++ [ev], inr tt).

(** [try: body  except Exception as e: handler e] *)
Definition try_except {A} (body : M A) (handler : exn -> M A) : M A := fun t =>
  match body t with
  | (t', inl e) => handler e t'
  | r => r
  end.

Definition run {A} (m : M A) : list event * (exn + A) := m [].

(** What a finished run hands back to Flask, if it returns at all. *)
Definition response_of {A} (outcome : list event * (exn + A)) : option A :=
  match snd outcome with
  | inr r => Some r
  | inl _ => None
  end.

(** The request body as Flask sees it. *)
Inductive RequestBody : Type :=
| Absent
| Unparsable
| Json (v : pyval).

(** [flask.request.get_json(silent=True)]: [None] when there is nothing
    to parse or parsing fails. *)
Definition get_json_silent (b : RequestBody) : pyval :=
  match b with
  | Json v => v
  | Absent | Unparsable => PyNone
  end.

(** A Flask response tuple [(body, status)]. *)
Definition Response : Type := string * Z.

(** [return (body, status)] *)
Definition respond (body : string) (status : Z) : M Response :=
  mret (body, status).

(* ================================================================= *)
(** ** The application *)

Definition nl : string := String (ascii_of_nat 10) EmptyString.

Section App.
(** The interpreter's [repr] for floats and containers. *)
Variable py_repr : pyval -> string.
Variable env : Env.

Local Abbreviation fmt := (format py_repr).

(** The [SELECT ... FROM campaign] lines of the query literal, from its
    opening line break on. *)
Definition select_from : string :=
  nl +:+
  "        SELECT" +:+ nl +:+
  "            campaign.id," +:+ nl +:+
  "            segments.date," +:+ nl +:+
  "            metrics.cost_micros," +:+ nl +:+
  "            segments.device," +:+ nl +:+
  "            segments.ad_network_type," +:+ nl +:+
  "            customer.id" +:+ nl +:+
  "        FROM campaign" +:+ nl.

(** The GAQL f-string of [fetch_google_ads_data]. *)
Definition gaql_query (start_date end_date : pyval) : string :=
  select_from +:+
  "        WHERE segments.date BETWEEN '" +:+ fmt start_date +:+
  "' AND '" +:+ fmt end_date +:+ "'" +:+ nl +:+
  "    ".

(** The dict appended for one result row. *)
Definition to_row (row : Ads.GoogleAdsRow) : M Row :=
  cost ← lift (truediv (Ads.cost_micros (Ads.metrics row)) 1000000);
  mret (<["cost" := PyFloat cost]>
        (<["device" := PyStr (Ads.name (Ads.device (Ads.segments row)))]>
        (<["ad_network_type" :=
             PyStr (Ads.name (Ads.ad_network_type (Ads.segments row)))]>
        (<["campaign_id" := PyInt (Ads.campaign_id (Ads.campaign row))]>
        (<["external_customer_id" :=
             PyInt (Ads.customer_id (Ads.customer row))]>
        (<["event_date" := PyStr (Ads.date (Ads.segments row))]> ∅)))))).

(** [for row in batch.results: ... rows_to_insert.append({...})] *)
Fixpoint for_results (rs : list Ads.GoogleAdsRow) (rows_to_insert : list Row)
  : M (list Row) :=
  match rs with
  | [] => mret rows_to_insert
  | row :: rs' =>
      d ← to_row row;
      for_results rs' (rows_to_insert ++ [d])
  end.

(** [for batch in stream: ...] *)
Fixpoint for_stream (stream : Ads.Stream) (rows_to_insert : list Row)
  : M (list Row) :=
  match stream with
  | Ads.StreamEnd => mret rows_to_insert
  | Ads.StreamRaise e => raise e
  | Ads.StreamBatch batch rest =>
      rows_to_insert' ← for_results (Ads.results batch) rows_to_insert;
      for_stream rest rows_to_insert'
  end.

Definition fetch_google_ads_data (start_date end_date : pyval) : M (list Row) :=
  emit (GetService (ADS_CONFIG_STRING env));;
  lift (get_service env (ADS_CONFIG_STRING env));;
  let query := gaql_query start_date end_date in
  emit (SearchStream (ADS_CUSTOMER_ID env) query);;
  stream ← lift (search_stream env (ADS_CUSTOMER_ID env) query);
  for_stream stream [].

Definition table_id : string :=
  fmt (of_environ (GCP_PROJECT env)) +:+ "." +:+
  fmt (of_environ (BQ_DATASET env)) +:+ "." +:+
  fmt (of_environ (BQ_TABLE env)).

Definition load_data_to_bigquery (rows : list Row) : M unit :=
  emit (InsertRowsJson table_id rows);;
  errors ← lift (insert_rows_json env table_id rows);
  if truthy (PyList errors) then
    emit (Print ("Encountered errors while inserting rows: "
                 +:+ fmt (PyList errors)));;
    raise (Exception ("BigQuery load job failed: " +:+ fmt (PyList errors)))
  else mret tt.

(** [not request_json or 'start_date' not in request_json
     or 'end_date' not in request_json], evaluated left to right. *)
Definition request_rejected (request_json : pyval) : M bool :=
  if negb (truthy request_json) then mret true
  else
    has_start ← lift (contains "start_date" request_json);
    if negb has_start then mret true
    else
      has_end ← lift (contains "end_date" request_json);
      mret (negb has_end).

Definition invalid_request_message : string :=
  "Invalid request: JSON payload with 'start_date' and 'end_date' is required.".

Definition run_job (body : RequestBody) : M Response :=
  let request_json := get_json_silent body in
  rejected ← request_rejected request_json;
  if (rejected : bool) then respond invalid_request_message 400
  else
    start_date ← lift (getitem request_json "start_date");
    end_date ← lift (getitem request_json "end_date");
    emit (Print ("Starting job for customer "
                 +:+ fmt (of_environ (ADS_CUSTOMER_ID env))
                 +:+ " from " +:+ fmt start_date
                 +:+ " to " +:+ fmt end_date));;
    try_except
      (ads_data ← fetch_google_ads_data start_date end_date;
       if negb (truthy (PyList (PyDict <$> ads_data))) then
         emit (Print "No data returned from Google Ads.");;
         respond "Successfully completed. No data to load." 200
       else
         load_data_to_bigquery ads_data;;
         emit (Print ("Successfully loaded " +:+ fmt (PyInt (len ads_data))
                      +:+ " rows into BigQuery."));;
         respond ("Success: Loaded " +:+ fmt (PyInt (len ads_data)) +:+ " rows.")
                 200)
      (fun e =>
         emit (Print ("Error during job execution: " +:+ exn_str e));;
         respond ("An error occurred: " +:+ exn_str e) 500).

(** The events a run is made of, named for the statements below. *)
Definition job_started (vs ve : pyval) : event :=
  Print ("Starting job for customer " +:+ fmt (of_environ (ADS_CUSTOMER_ID env))
         +:+ " from " +:+ fmt vs +:+ " to " +:+ fmt ve).

Definition job_failed (e : exn) : event :=
  Print ("Error during job execution: " +:+ exn_str e).

Definition client_call_of : event := GetService (ADS_CONFIG_STRING env).

Definition search_call_of (vs ve : pyval) : event :=
  SearchStream (ADS_CUSTOMER_ID env) (gaql_query vs ve).

Definition insert_call_of (rows : list Row) : event :=
  InsertRowsJson table_id rows.

End App.

(* ================================================================= *)
(** ** Vocabulary of the specification *)

(** The binary64 quotient of an amount in micros by one million. *)
Definition cost_of (micros : Z) : spec_float :=
  SFdiv prec emax (Z2SF micros) (Z2SF 1000000).

(** The destination-schema record for one platform record, following the
    data model of the specification: six named fields. *)
Definition warehouse_row (r : Ads.GoogleAdsRow) : Row :=
  list_to_map
    [ ("event_date", PyStr (Ads.date (Ads.segments r)));
      ("external_customer_id", PyInt (Ads.customer_id (Ads.customer r)));
      ("campaign_id", PyInt (Ads.campaign_id (Ads.campaign r)));
      ("ad_network_type", PyStr (Ads.name (Ads.ad_network_type (Ads.segments r))));
      ("device", PyStr (Ads.name (Ads.device (Ads.segments r))));
      ("cost", PyFloat (cost_of (Ads.cost_micros (Ads.metrics r)))) ].

Definition warehouse_fields : gset string :=
  {[ "event_date"; "external_customer_id"; "campaign_id";
     "ad_network_type"; "device"; "cost" ]}.

(** The date-range condition of the reporting query language; [BETWEEN]
    includes both ends. *)
Definition between_filter (first last : string) : string :=
  "WHERE segments.date BETWEEN '" +:+ first +:+ "' AND '" +:+ last +:+ "'".

(** The fields the report selects: campaign id, date, cost, device
    segment, network-type segment and account id. *)
Definition selected_fields : list string :=
  [ "campaign.id"; "segments.date"; "metrics.cost_micros";
    "segments.device"; "segments.ad_network_type"; "customer.id" ].

(** Layout characters of the query language: space, tab, line feed and
    carriage return. *)
Definition is_space (c : ascii) : bool :=
  match nat_of_ascii c with
  | 32%nat | 9%nat | 10%nat | 13%nat => true
  | _ => false
  end.

(** The word being read, if any, as a one-word or empty list. *)
Definition flush (st : option string) : list string :=
  match st with
  | Some w => [w]
  | None => []
  end.

(** Reading a text word by word: the words completed so far and the
    word being read. *)
Fixpoint scan (st : option string) (s : string) : list string * option string :=
  match s with
  | EmptyString => ([], st)
  | String c s' =>
      if is_space c then
        let '(ws, st') := scan None s' in (flush st ++ ws, st')
      else
        scan (Some (match st with
                    | Some w => w +:+ String c EmptyString
                    | None => String c EmptyString
                    end)) s'
  end.

(** The words of a text: two texts with the same words differ in layout
    only. *)
Definition words (s : string) : list string :=
  let '(ws, st) := scan None s in ws ++ flush st.

(** A report in the query language, as the specification describes it:
    the fields selected, the resource they are selected from, and the
    condition the rows are filtered by. *)
Definition report_statement (fields : list string) (resource condition : string)
  : string :=
  "SELECT " +:+ String.concat ", " fields +:+ " FROM " +:+ resource
  +:+ " " +:+ condition.

(** Reading a decimal numeral back. *)
Definition parse_int (s : string) : option Z :=
  Z.of_int <$> NilZero.int_of_string s.

(** Every record of every batch, in arrival order. *)
Definition all_results (bs : list Ads.Batch) : list Ads.GoogleAdsRow :=
  List.concat (map Ads.results bs).

(** What the cost of a row is to the amount in micros of its record:
    the float Python's division returns, which denotes a rational
    within [2^-53] (relatively) of the amount divided by one million. *)
Definition cost_matches (r : Ads.GoogleAdsRow) (w : Row) : Prop :=
  let micros := Ads.cost_micros (Ads.metrics r) in
  exists (c : spec_float) (q : Q),
    w !! "cost" = Some (PyFloat c) /\
    truediv micros 1000000 = inr c /\
    SF2Q c = Some q /\
    (Qabs (q * inject_Z 1000000 - inject_Z micros) * inject_Z (2 ^ 53)
     <= Qabs (inject_Z micros))%Q.

(** A computation whose effect on the trace is to append to it, and whose
    result does not depend on what was traced before. *)
Definition framed {A} (m : M A) : Prop :=
  forall t, m t = (t ++ fst (m []), snd (m [])).

(** A payload that is a JSON object carrying both dates. *)
Definition carries_dates (d : gmap string pyval) (start_date end_date : pyval) : Prop :=
  d !! "start_date" = Some start_date /\ d !! "end_date" = Some end_date.

(** 1.5 and 2.0 as binary64 numbers. *)
Definition float_1_5 : spec_float := S754_finite false 6755399441055744 (-52).
Definition float_2_0 : spec_float := S754_finite false 4503599627370496 (-51).

(** The calls made to the two vendor clients, in order: the trace
    without what was printed. *)
Definition is_vendor_call (ev : event) : bool :=
  match ev with
  | Print _ => false
  | _ => true
  end.

Definition vendor_calls (t : list event) : list event :=
  List.filter is_vendor_call t.

(** A JSON object, as opposed to the other values a body can parse to. *)
Definition is_object (v : pyval) : bool :=
  match v with
  | PyDict _ => true
  | _ => false
  end.

(** A stream that delivers the given batches and then fails. *)
Definition failing_after (bs : list Ads.Batch) (e : exn) : Ads.Stream :=
  foldr Ads.StreamBatch (Ads.StreamRaise e) bs.

(* ================================================================= *)
(** ** A concrete deployment, used to exercise the theorems *)

Module Demo.

Definition repr (v : pyval) : string := "<" +:+ type_name v +:+ ">".

Definition SEARCH : Ads.Enum := {| Ads.name := "SEARCH"; Ads.value := 2 |}.
Definition MOBILE : Ads.Enum := {| Ads.name := "MOBILE"; Ads.value := 2 |}.

Definition record (day : string) (micros : Z) : Ads.GoogleAdsRow :=
  {| Ads.campaign := {| Ads.campaign_id := 20240001 |};
     Ads.customer := {| Ads.customer_id := 1234567890 |};
     Ads.metrics := {| Ads.cost_micros := micros |};
     Ads.segments := {| Ads.date := day; Ads.device := MOBILE;
                        Ads.ad_network_type := SEARCH |} |}.

Definition two_records : list Ads.Batch :=
  [ {| Ads.results := [record "2024-01-02" 1500000; record "2024-01-03" 2000000] |} ].

Definition env (client : exn + unit) (stream : exn + Ads.Stream)
    (insert : exn + list pyval) : Env :=
  {| GCP_PROJECT := Some "acme";
     BQ_DATASET := Some "google_ads_data";
     BQ_TABLE := Some "p_CampaignStats";
     ADS_CUSTOMER_ID := Some "1234567890";
     ADS_CONFIG_STRING := Some "developer_token: T";
     get_service := fun _ => client;
     search_stream := fun _ _ => stream;
     insert_rows_json := fun _ _ => insert |}.

Definition payload : gmap string pyval :=
  <["start_date" := PyStr "2024-01-01"]> (<["end_date" := PyStr "2024-01-31"]> ∅).

Definition request : RequestBody := Json (PyDict payload).

Definition start_date : pyval := PyStr "2024-01-01".
Definition end_date : pyval := PyStr "2024-01-31".

Definition bad_credentials : exn := Exn "GoogleAdsException" "invalid developer token".
Definition row_error : pyval :=
  PyDict (<["index" := PyInt 0]> (<["errors" := PyList [PyStr "no such field"]]> ∅)).


(** Two records arrive and the warehouse accepts them. *)
Definition env_ok : Env :=
  env (inr tt) (inr (Ads.stream_of two_records)) (inr []).

(** The platform has nothing for the range. *)
Definition env_empty : Env :=
  env (inr tt) (inr (Ads.stream_of [ {| Ads.results := [] |} ])) (inr []).

(** The warehouse reports an error for the first row. *)
Definition env_rejected : Env :=
  env (inr tt) (inr (Ads.stream_of two_records)) (inr [row_error]).

(** The client cannot be built. *)
Definition env_no_client : Env :=
  env (inl bad_credentials) (inr Ads.StreamEnd) (inr []).

End Demo.

(* ================================================================= *)
(** ** True division of an [int64] amount by one million *)

Section Binary64.

Lemma digits2_pos_size (p : positive) : digits2_pos p = Pos.size p.
Proof. induction p as [p IH|p IH|]; simpl; congruence. Qed.

(** A number below [2^n] has at most [n] binary digits. *)
Lemma Zdigits2_le (m n : Z) : 0 <= n -> 0 <= m < 2 ^ n -> Zdigits2 m <= n.
Proof.
  intros Hn [Hm Hlt]. destruct m as [|p|p]; simpl; [lia| |lia].
  rewrite digits2_pos_size.
  pose proof (Pos.size_le p) as Hs.
  apply Pos2Z.pos_le_pos in Hs. rewrite Pos2Z.inj_pow in Hs.
  change (Z.pos p~0) with (2 * Z.pos p) in Hs.
  assert (2 ^ Z.pos (Pos.size p) < 2 ^ (n + 1)) as Hpow.
  { rewrite Z.pow_add_r by lia. lia. }
  apply Z.pow_lt_mono_r_iff in Hpow; lia.
Qed.

Lemma round_nearest_even_bound (m : Z) (l : location) :
  m <= round_nearest_even m l <= m + 1.
Proof.
  destruct l as [|[]]; simpl; try lia. destruct (Z.even m); lia.
Qed.

(** A number in [[2^k, 2^(k+1))] has exactly [k+1] binary digits. *)
Lemma Zdigits2_eq (x k : Z) : 0 <= k -> 2 ^ k <= x < 2 ^ (k + 1) -> Zdigits2 x = k + 1.
Proof.
  intros Hk [Hlo Hhi].
  assert (0 < x) as Hx by (pose proof (Z.pow_pos_nonneg 2 k); lia).
  pose proof (Zdigits2_le x (k + 1) ltac:(lia) ltac:(lia)) as Hle.
  destruct x as [|p|p]; try lia. simpl in *.
  rewrite digits2_pos_size in *.
  pose proof (Pos.size_gt p) as Hs.
  apply Pos2Z.pos_lt_pos in Hs. rewrite Pos2Z.inj_pow in Hs.
  assert (2 ^ k < 2 ^ Z.pos (Pos.size p)) as Hpow by lia.
  apply Z.pow_lt_mono_r_iff in Hpow; lia.
Qed.

Lemma shr_record_of_loc_m (m : Z) (l : location) : shr_m (shr_record_of_loc m l) = m.
Proof. by destruct l as [|[]]. Qed.

Lemma loc_of_shr_record_of_loc (m : Z) (l : location) :
  loc_of_shr_record (shr_record_of_loc m l) = l.
Proof. by destruct l as [|[]]. Qed.

Lemma fexp_normal (d e : Z) : -1021 <= d + e -> fexp prec emax (d + e) = d + e - 53.
Proof. unfold fexp, SpecFloat.emin, prec, emax. lia. Qed.

(** The last step of rounding: a mantissa of 53 bits is kept, [2^53] is
    renormalised to [2^52] one exponent up. *)
Lemma renormalise (s : bool) (m2 e : Z) :
  2 ^ 52 <= m2 <= 2 ^ 53 -> -1000 <= e <= 900 ->
  exists mz ez,
    (let '(mrs, e'') := shr_fexp prec emax m2 e loc_Exact in
     match shr_m mrs with
     | Z0 => S754_zero s
     | Zpos m => if e'' <=? emax - prec then S754_finite s m e'' else S754_infinity s
     | Zneg _ => S754_nan
     end) = S754_finite s mz ez /\
    e <= ez <= e + 1 /\ Z.pos mz * 2 ^ (ez - e) = m2.
Proof.
  intros Hm He.
  destruct (Z.eq_dec m2 (2 ^ 53)) as [->|Hne].
  - exists (Z.to_pos (2 ^ 52)), (e + 1).
    unfold shr_fexp. change (Zdigits2 (2 ^ 53)) with 54.
    rewrite fexp_normal by lia.
    replace (54 + e - 53 - e) with 1 by lia. cbn [shr].
    replace ((e + 1 <=? emax - prec)) with true
      by (symmetry; apply Z.leb_le; unfold emax, prec; lia).
    split; [reflexivity|]. split; [lia|].
    replace (e + 1 - e) with 1 by lia. reflexivity.
  - exists (Z.to_pos m2), e.
    unfold shr_fexp. rewrite (Zdigits2_eq m2 52) by lia.
    rewrite fexp_normal by lia.
    replace (52 + 1 + e - 53 - e) with 0 by lia. cbn [shr shr_record_of_loc shr_m].
    destruct m2 as [|p|p]; try lia.
    replace ((e <=? emax - prec)) with true
      by (symmetry; apply Z.leb_le; unfold emax, prec; lia).
    split; [reflexivity|]. split; [lia|].
    rewrite Z.sub_diag. simpl. lia.
Qed.

(** Rounding a quotient [q] of 53 or 54 bits, with remainder [r] of the
    division by one million, to nearest-even: the result is within half
    a unit in the last place of the exact quotient. *)
Lemma round_quotient (s : bool) (q r e : Z) :
  0 <= r < 1000000 -> 2 ^ 52 <= q < 2 ^ 54 -> -1000 <= e <= 800 ->
  exists mz ez,
    binary_round_aux prec emax s q e (new_location 1000000 r) = S754_finite s mz ez /\
    e <= ez <= e + 2 /\
    Z.abs (Z.pos mz * 2 ^ (ez - e) * 1000000 - (1000000 * q + r)) * 2 ^ 53
    <= 1000000 * q + r.
Proof.
  intros Hr Hq He.
  set (loc := new_location 1000000 r).
  assert (match loc with
          | loc_Exact => r = 0
          | loc_Inexact Lt => 0 < 2 * r < 1000000
          | loc_Inexact Eq => 2 * r = 1000000
          | loc_Inexact Gt => 1000000 < 2 * r
          end) as Hloc.
  { subst loc. unfold new_location. change (Z.even 1000000) with true. cbv iota. unfold new_location_even.
    destruct (Z.eqb_spec r 0) as [->|Hne]; [reflexivity|].
    destruct (Z.compare_spec (2 * r) 1000000); lia. }
  clearbody loc.
  destruct (Z_lt_le_dec q (2 ^ 53)) as [Hlt|Hge].
  - unfold binary_round_aux. unfold shr_fexp at 1.
    rewrite (Zdigits2_eq q 52), fexp_normal by lia.
    replace (52 + 1 + e - 53 - e) with 0 by lia. cbn [shr].
    rewrite shr_record_of_loc_m, loc_of_shr_record_of_loc.
    pose proof (round_nearest_even_bound q loc) as Hb.
    destruct (renormalise s (round_nearest_even q loc) e) as (mz & ez & Heq & Hez & Hval);
      [lia|lia|].
    exists mz, ez. split; [exact Heq|]. split; [lia|]. rewrite Hval.
    change (2 ^ 53) with 9007199254740992. change (2 ^ 52) with 4503599627370496 in *.
    destruct loc as [|[]]; cbn [round_nearest_even] in *;
      try destruct (Z.even q); lia.
  - unfold binary_round_aux. unfold shr_fexp at 1.
    rewrite (Zdigits2_eq q 53), fexp_normal by lia.
    replace (53 + 1 + e - 53 - e) with 1 by lia. cbn [shr SpecFloat.iter_pos].
    set (mrs := shr_1 (shr_record_of_loc q loc)).
    assert (exists h b,
               q = 2 * h + (if b : bool then 1 else 0) /\ shr_m mrs = h /\
               loc_of_shr_record mrs
               = match b, loc with
                 | false, loc_Exact => loc_Exact
                 | false, _ => loc_Inexact Lt
                 | true, loc_Exact => loc_Inexact Eq
                 | true, _ => loc_Inexact Gt
                 end) as (h & b & Hqh & Hm & Hl).
    { subst mrs. change (2 ^ 53) with 9007199254740992 in Hge.
      destruct q as [|[p|p|]|]; try lia.
      - exists (Z.pos p), true. by destruct loc as [|[]].
      - exists (Z.pos p), false. by destruct loc as [|[]]. }
    rewrite Hm, Hl. clearbody mrs.
    set (loc1 := match b, loc with
                 | false, loc_Exact => loc_Exact
                 | false, _ => loc_Inexact Lt
                 | true, loc_Exact => loc_Inexact Eq
                 | true, _ => loc_Inexact Gt
                 end).
    pose proof (round_nearest_even_bound h loc1) as Hb.
    change (2 ^ 53) with 9007199254740992 in *.
    change (2 ^ 54) with 18014398509481984 in *.
    change (2 ^ 52) with 4503599627370496 in *.
    destruct (renormalise s (round_nearest_even h loc1) (e + 1)) as (mz & ez & Heq & Hez & Hval);
      [change (2 ^ 53) with 9007199254740992;
       change (2 ^ 52) with 4503599627370496; destruct b; lia|lia|].
    exists mz, ez. split; [exact Heq|]. split; [lia|].
    replace (ez - e) with (ez - (e + 1) + 1) by lia.
    rewrite Z.pow_add_r by lia. change (2 ^ 1) with 2.
    replace (Z.pos mz * (2 ^ (ez - (e + 1)) * 2)) with
      (Z.pos mz * 2 ^ (ez - (e + 1)) * 2) by lia.
    rewrite Hval. subst loc1.
    destruct b, loc as [|[]]; cbn [round_nearest_even] in *;
      try destruct (Z.even h); lia.
Qed.

(** The quotient of a non-zero [int64] amount by one million is a finite
    binary64 number [mz * 2^ez] whose distance to the exact quotient is
    at most [2^-53] of it (both sides scaled by [2^-ez * 10^6]). *)
Lemma cost_of_nearest (m : Z) :
  Ads.int64 m -> m <> 0 ->
  exists mz ez,
    cost_of m = S754_finite (m <? 0) mz ez /\ ez < 0 /\
    Z.abs (Z.pos mz * 1000000 - Z.abs m * 2 ^ (- ez)) * 2 ^ 53
    <= Z.abs m * 2 ^ (- ez).
Proof.
  intros [Hlo Hhi] Hm0.
  assert (exists p sg, m = (if sg : bool then Z.neg p else Z.pos p) /\
                       (m <? 0) = sg /\ Z.abs m = Z.pos p /\
                       Z2SF m = S754_finite sg p 0) as (p & sg & -> & Hsg & Habs & Hsf).
  { destruct m as [|p|p]; [done|exists p, false|exists p, true]; by repeat split. }
  rewrite Hsg, Habs. unfold cost_of. rewrite Hsf. clear Hsg Habs Hsf Hm0.
  assert (Z.pos p <= 2 ^ 63) as Hp by (destruct sg; lia). clear Hlo Hhi.
  set (k := Z.log2 (Z.pos p)).
  pose proof (Z.log2_spec (Z.pos p) ltac:(lia)) as Hk. fold k in Hk.
  pose proof (Z.log2_nonneg (Z.pos p)) as Hk0. fold k in Hk0.
  assert (k <= 63) as Hk63.
  { destruct (Z_le_gt_dec k 63) as [?|Hgt]; [assumption|].
    assert (2 ^ 64 <= 2 ^ k) by (apply Z.pow_le_mono_r; lia).
    change (2 ^ 64) with (2 * 2 ^ 63) in *. lia. }
  unfold Z2SF, SFdiv, SFdiv_core_binary.
  rewrite (Zdigits2_eq (Z.pos p) k Hk0) by (rewrite <- Z.add_1_r in Hk; exact Hk).
  change (Zdigits2 1000000) with 20.
  replace (Z.min (fexp prec emax (k + 1 + 0 - (20 + 0))) (0 - 0)) with (k - 72)
    by (unfold fexp, SpecFloat.emin, prec, emax; lia).
  destruct (0 - 0 - (k - 72)) as [|sh|sh] eqn:Hsh; try lia.
  rewrite Z.shiftl_mul_pow2 by lia. rewrite <- Hsh.
  replace (0 - 0 - (k - 72)) with (72 - k) by lia. clear sh Hsh.
  set (m' := Z.pos p * 2 ^ (72 - k)).
  assert (2 ^ 72 <= m' < 2 ^ 73) as Hm'.
  { subst m'.
    assert (2 ^ 72 = 2 ^ k * 2 ^ (72 - k)) as ->
      by (rewrite <- Z.pow_add_r by lia; f_equal; lia).
    assert (2 ^ 73 = 2 ^ Z.succ k * 2 ^ (72 - k)) as ->
      by (rewrite <- Z.pow_add_r by lia; f_equal; lia).
    assert (0 < 2 ^ (72 - k)) by (apply Z.pow_pos_nonneg; lia). nia. }
  pose proof (Z_div_mod m' 1000000 ltac:(lia)) as Hdm.
  destruct (Z.div_eucl m' 1000000) as [q r]. destruct Hdm as [Hdm Hr].
  change (2 ^ 72) with 4722366482869645213696 in Hm'.
  change (2 ^ 73) with 9444732965739290427392 in Hm'.
  destruct (round_quotient (xorb sg false) q r (k - 72)) as (mz & ez & Heq & Hez & Hval);
    [lia
    |change (2 ^ 52) with 4503599627370496;
     change (2 ^ 54) with 18014398509481984; lia
    |lia|].
  exists mz, ez. rewrite Heq. split; [by destruct sg|]. split; [lia|].
  rewrite <- Hdm in Hval. subst m'.
  replace (72 - k) with (- ez + (ez - (k - 72))) in Hval by lia.
  rewrite Z.pow_add_r in Hval by lia.
  set (j := 2 ^ (ez - (k - 72))) in *.
  assert (0 < j) as Hj by (apply Z.pow_pos_nonneg; lia).
  set (X := Z.pos p * 2 ^ (- ez)) in *.
  replace (Z.pos mz * j * 1000000 - Z.pos p * (2 ^ (- ez) * j))
    with ((Z.pos mz * 1000000 - X) * j) in Hval by (subst X; lia).
  rewrite Z.abs_mul, (Z.abs_eq j) in Hval by lia.
  replace (Z.pos p * (2 ^ (- ez) * j)) with (X * j) in Hval by (subst X; lia).
  apply (Z.mul_le_mono_pos_r _ _ j); [exact Hj|]. lia.
Qed.

Lemma cost_of_value (m : Z) :
  Ads.int64 m ->
  exists q : Q,
    SF2Q (cost_of m) = Some q /\
    (Qabs (q * inject_Z 1000000 - inject_Z m) * inject_Z (2 ^ 53)
     <= Qabs (inject_Z m))%Q.
Proof.
  intros Hm. destruct (Z.eq_dec m 0) as [->|Hm0].
  { exists 0%Q. split; [reflexivity|]. vm_compute. discriminate. }
  destruct (cost_of_nearest m Hm Hm0) as (mz & ez & -> & Hez & Hval).
  destruct ez as [|k|k]; try lia. cbn [SF2Q].
  eexists. split; [reflexivity|].
  change (- Z.neg k) with (Z.pos k) in Hval.
  unfold Qle, Qabs, Qminus, Qplus, Qmult, Qopp, inject_Z. cbn [Qnum Qden].
  rewrite !Pos.mul_1_r, !Z.mul_1_r, Pos2Z.inj_pow.
  set (P := 2 ^ Z.pos k) in *.
  destruct (Z.ltb_spec m 0); lia.
Qed.

(** In particular the division does not overflow. *)
Lemma truediv_int64 (micros : Z) :
  Ads.int64 micros -> truediv micros 1000000 = inr (cost_of micros).
Proof.
  intros H. unfold truediv. change (1000000 =? 0) with false. cbv iota.
  fold (cost_of micros).
  destruct (Z.eq_dec micros 0) as [->|Hne]; [reflexivity|].
  by destruct (cost_of_nearest micros H Hne) as (mz & ez & -> & _).
Qed.

End Binary64.

(* ================================================================= *)
(** ** What the rounding leaves: normal numbers, exact quotients, order *)

Section Exactness.

(** The last step of rounding, with the mantissa it leaves. *)
Lemma renormalise_normal (s : bool) (m2 e : Z) :
  2 ^ 52 <= m2 <= 2 ^ 53 -> -1000 <= e <= 900 ->
  exists mz ez,
    (let '(mrs, e'') := shr_fexp prec emax m2 e loc_Exact in
     match shr_m mrs with
     | Z0 => S754_zero s
     | Zpos m => if e'' <=? emax - prec then S754_finite s m e'' else S754_infinity s
     | Zneg _ => S754_nan
     end) = S754_finite s mz ez /\
    e <= ez <= e + 1 /\ Z.pos mz * 2 ^ (ez - e) = m2 /\
    2 ^ 52 <= Z.pos mz < 2 ^ 53.
Proof.
  intros Hm He.
  destruct (Z.eq_dec m2 (2 ^ 53)) as [->|Hne].
  - exists (Z.to_pos (2 ^ 52)), (e + 1).
    unfold shr_fexp. change (Zdigits2 (2 ^ 53)) with 54.
    rewrite fexp_normal by lia.
    replace (54 + e - 53 - e) with 1 by lia. cbn [shr].
    replace ((e + 1 <=? emax - prec)) with true
      by (symmetry; apply Z.leb_le; unfold emax, prec; lia).
    split; [reflexivity|]. split; [lia|].
    replace (e + 1 - e) with 1 by lia. split; [reflexivity|].
    split; [reflexivity|reflexivity].
  - exists (Z.to_pos m2), e.
    unfold shr_fexp. rewrite (Zdigits2_eq m2 52) by lia.
    rewrite fexp_normal by lia.
    replace (52 + 1 + e - 53 - e) with 0 by lia. cbn [shr shr_record_of_loc shr_m].
    destruct m2 as [|p|p]; try lia.
    replace ((e <=? emax - prec)) with true
      by (symmetry; apply Z.leb_le; unfold emax, prec; lia).
    split; [reflexivity|]. split; [lia|].
    rewrite Z.sub_diag. cbn [Z.to_pos]. lia.
Qed.

(** Rounding a quotient [q] of 53 or 54 bits, with remainder [r] of the
    division by one million.  [E] is the exponent of the binade the
    exact quotient lies in; the result has a mantissa of 53 bits and is
    within half a unit in the last place of that binade. *)
Lemma round_quotient_half_ulp (s : bool) (q r e : Z) :
  0 <= r < 1000000 -> 2 ^ 52 <= q < 2 ^ 54 -> -1000 <= e <= 800 ->
  exists mz ez E,
    binary_round_aux prec emax s q e (new_location 1000000 r) = S754_finite s mz ez /\
    2 ^ 52 <= Z.pos mz < 2 ^ 53 /\
    e <= E <= e + 1 /\ E <= ez <= E + 1 /\
    2 ^ 52 * 2 ^ (E - e) <= q < 2 ^ 53 * 2 ^ (E - e) /\
    Z.abs (Z.pos mz * 2 ^ (ez - e) * 1000000 - (1000000 * q + r)) * 2
    <= 1000000 * 2 ^ (E - e).
Proof.
  intros Hr Hq He.
  set (loc := new_location 1000000 r).
  assert (match loc with
          | loc_Exact => r = 0
          | loc_Inexact Lt => 0 < 2 * r < 1000000
          | loc_Inexact Eq => 2 * r = 1000000
          | loc_Inexact Gt => 1000000 < 2 * r
          end) as Hloc.
  { subst loc. unfold new_location. change (Z.even 1000000) with true. cbv iota.
    unfold new_location_even.
    destruct (Z.eqb_spec r 0) as [->|Hne]; [reflexivity|].
    destruct (Z.compare_spec (2 * r) 1000000); lia. }
  clearbody loc.
  destruct (Z_lt_le_dec q (2 ^ 53)) as [Hlt|Hge].
  - unfold binary_round_aux. unfold shr_fexp at 1.
    rewrite (Zdigits2_eq q 52), fexp_normal by lia.
    replace (52 + 1 + e - 53 - e) with 0 by lia. cbn [shr].
    rewrite shr_record_of_loc_m, loc_of_shr_record_of_loc.
    pose proof (round_nearest_even_bound q loc) as Hb.
    destruct (renormalise_normal s (round_nearest_even q loc) e)
      as (mz & ez & Heq & Hez & Hval & Hmz); [lia|lia|].
    exists mz, ez, e. split; [exact Heq|]. split; [exact Hmz|].
    split; [lia|]. split; [lia|]. rewrite Z.sub_diag. change (2 ^ 0) with 1.
    split; [lia|]. rewrite Hval.
    destruct loc as [|[]]; cbn [round_nearest_even] in *;
      try destruct (Z.even q); lia.
  - unfold binary_round_aux. unfold shr_fexp at 1.
    rewrite (Zdigits2_eq q 53), fexp_normal by lia.
    replace (53 + 1 + e - 53 - e) with 1 by lia. cbn [shr SpecFloat.iter_pos].
    set (mrs := shr_1 (shr_record_of_loc q loc)).
    assert (exists h b,
               q = 2 * h + (if b : bool then 1 else 0) /\ shr_m mrs = h /\
               loc_of_shr_record mrs
               = match b, loc with
                 | false, loc_Exact => loc_Exact
                 | false, _ => loc_Inexact Lt
                 | true, loc_Exact => loc_Inexact Eq
                 | true, _ => loc_Inexact Gt
                 end) as (h & b & Hqh & Hm & Hl).
    { subst mrs. change (2 ^ 53) with 9007199254740992 in Hge.
      destruct q as [|[p|p|]|]; try lia.
      - exists (Z.pos p), true. by destruct loc as [|[]].
      - exists (Z.pos p), false. by destruct loc as [|[]]. }
    rewrite Hm, Hl. clearbody mrs.
    set (loc1 := match b, loc with
                 | false, loc_Exact => loc_Exact
                 | false, _ => loc_Inexact Lt
                 | true, loc_Exact => loc_Inexact Eq
                 | true, _ => loc_Inexact Gt
                 end).
    pose proof (round_nearest_even_bound h loc1) as Hb.
    change (2 ^ 53) with 9007199254740992 in *.
    change (2 ^ 54) with 18014398509481984 in *.
    change (2 ^ 52) with 4503599627370496 in *.
    destruct (renormalise_normal s (round_nearest_even h loc1) (e + 1))
      as (mz & ez & Heq & Hez & Hval & Hmz);
      [change (2 ^ 53) with 9007199254740992;
       change (2 ^ 52) with 4503599627370496; destruct b; lia|lia|].
    exists mz, ez, (e + 1). split; [exact Heq|]. split; [exact Hmz|].
    split; [lia|]. split; [lia|].
    replace (e + 1 - e) with 1 by lia. change (2 ^ 1) with 2.
    split; [lia|].
    replace (ez - e) with (ez - (e + 1) + 1) by lia.
    rewrite Z.pow_add_r by lia. change (2 ^ 1) with 2.
    replace (Z.pos mz * (2 ^ (ez - (e + 1)) * 2)) with
      (Z.pos mz * 2 ^ (ez - (e + 1)) * 2) by lia.
    rewrite Hval. subst loc1.
    destruct b, loc as [|[]]; cbn [round_nearest_even] in *;
      try destruct (Z.even h); lia.
Qed.

(** The quotient of a non-zero [int64] amount by one million, as the
    rounding leaves it: a normal number [mz * 2^ez] with the sign of the
    amount, where [E] is the exponent of the binade of the exact quotient
    and the error is at most half a unit of that binade. *)
Lemma cost_of_rounding (m : Z) :
  Ads.int64 m -> m <> 0 ->
  exists mz ez E,
    cost_of m = S754_finite (m <? 0) mz ez /\
    2 ^ 52 <= Z.pos mz < 2 ^ 53 /\
    -72 <= E /\ E <= ez <= E + 1 /\ ez <= -7 /\
    2 ^ 52 * 1000000 <= Z.abs m * 2 ^ (- E) < 2 ^ 53 * 1000000 /\
    Z.abs (Z.pos mz * 2 ^ (ez - E) * 1000000 - Z.abs m * 2 ^ (- E)) * 2 <= 1000000.
Proof.
  intros [Hlo Hhi] Hm0.
  assert (exists p sg, m = (if sg : bool then Z.neg p else Z.pos p) /\
                       (m <? 0) = sg /\ Z.abs m = Z.pos p /\
                       Z2SF m = S754_finite sg p 0) as (p & sg & -> & Hsg & Habs & Hsf).
  { destruct m as [|p|p]; [done|exists p, false|exists p, true]; by repeat split. }
  rewrite Hsg, Habs. unfold cost_of. rewrite Hsf. clear Hsg Hsf Hm0 Habs.
  assert (Z.pos p <= 2 ^ 63) as Hp by (destruct sg; lia). clear Hlo Hhi.
  set (k := Z.log2 (Z.pos p)).
  pose proof (Z.log2_spec (Z.pos p) ltac:(lia)) as Hk. fold k in Hk.
  pose proof (Z.log2_nonneg (Z.pos p)) as Hk0. fold k in Hk0.
  assert (k <= 63) as Hk63.
  { destruct (Z_le_gt_dec k 63) as [?|Hgt]; [assumption|].
    assert (2 ^ 64 <= 2 ^ k) by (apply Z.pow_le_mono_r; lia).
    change (2 ^ 64) with (2 * 2 ^ 63) in *. lia. }
  unfold Z2SF, SFdiv, SFdiv_core_binary.
  rewrite (Zdigits2_eq (Z.pos p) k Hk0) by (rewrite <- Z.add_1_r in Hk; exact Hk).
  change (Zdigits2 1000000) with 20.
  replace (Z.min (fexp prec emax (k + 1 + 0 - (20 + 0))) (0 - 0)) with (k - 72)
    by (unfold fexp, SpecFloat.emin, prec, emax; lia).
  destruct (0 - 0 - (k - 72)) as [|sh|sh] eqn:Hsh; try lia.
  rewrite Z.shiftl_mul_pow2 by lia. rewrite <- Hsh.
  replace (0 - 0 - (k - 72)) with (72 - k) by lia. clear sh Hsh.
  set (m' := Z.pos p * 2 ^ (72 - k)).
  assert (2 ^ 72 <= m' < 2 ^ 73) as Hm'.
  { subst m'.
    assert (2 ^ 72 = 2 ^ k * 2 ^ (72 - k)) as ->
      by (rewrite <- Z.pow_add_r by lia; f_equal; lia).
    assert (2 ^ 73 = 2 ^ Z.succ k * 2 ^ (72 - k)) as ->
      by (rewrite <- Z.pow_add_r by lia; f_equal; lia).
    assert (0 < 2 ^ (72 - k)) by (apply Z.pow_pos_nonneg; lia). nia. }
  pose proof (Z_div_mod m' 1000000 ltac:(lia)) as Hdm.
  destruct (Z.div_eucl m' 1000000) as [q r]. destruct Hdm as [Hdm Hr].
  change (2 ^ 72) with 4722366482869645213696 in Hm'.
  change (2 ^ 73) with 9444732965739290427392 in Hm'.
  destruct (round_quotient_half_ulp (xorb sg false) q r (k - 72))
    as (mz & ez & E & Heq & Hmz & HE & Hez & Hbin & Hval);
    [lia
    |change (2 ^ 52) with 4503599627370496;
     change (2 ^ 54) with 18014398509481984; lia
    |lia|].
  exists mz, ez, E. rewrite Heq. split; [by destruct sg|]. split; [exact Hmz|].
  split; [lia|]. split; [lia|]. split; [lia|].
  rewrite <- Hdm in Hval. subst m'.
  set (c := 2 ^ (E - (k - 72))) in *.
  assert (0 < c) as Hc by (apply Z.pow_pos_nonneg; lia).
  assert (2 ^ (72 - k) = 2 ^ (- E) * c) as Hsplit.
  { subst c. rewrite <- Z.pow_add_r by lia. f_equal. lia. }
  assert (2 ^ (ez - (k - 72)) = 2 ^ (ez - E) * c) as Hsplit'.
  { subst c. rewrite <- Z.pow_add_r by lia. f_equal. lia. }
  rewrite Hsplit in Hdm, Hval. rewrite Hsplit' in Hval.
  set (X := Z.pos p * 2 ^ (- E)) in *.
  set (V := Z.pos mz * 2 ^ (ez - E)) in *.
  split.
  - assert (Z.pos p * (2 ^ (- E) * c) = X * c) as HX by (subst X; lia).
    rewrite HX in Hdm. nia.
  - replace (Z.pos mz * (2 ^ (ez - E) * c) * 1000000 - Z.pos p * (2 ^ (- E) * c))
      with ((V * 1000000 - X) * c) in Hval by (subst V X; lia).
    rewrite Z.abs_mul, (Z.abs_eq c) in Hval by lia.
    apply (Z.mul_le_mono_pos_r _ _ c); [exact Hc|]. lia.
Qed.

(** Rounding does not look at the sign. *)
Lemma binary_round_aux_opp (s : bool) (m e : Z) (l : location) :
  binary_round_aux prec emax (negb s) m e l
  = SFopp (binary_round_aux prec emax s m e l).
Proof.
  unfold binary_round_aux.
  destruct (shr_fexp prec emax m e l) as [mrs' e'].
  destruct (shr_fexp prec emax _ e' loc_Exact) as [mrs'' e''].
  destruct (shr_m mrs''); [reflexivity| |reflexivity].
  by destruct (e'' <=? emax - prec).
Qed.

(** What an exactly representable quotient rounds to. *)
Lemma cost_of_exact (m x j : Z) :
  Ads.int64 m -> 0 <= j -> Z.abs x < 2 ^ 53 -> 1000000 * x = m * 2 ^ j ->
  exists q, SF2Q (cost_of m) = Some q /\ (q * inject_Z 1000000 == inject_Z m)%Q.
Proof.
  intros Hm Hj Hx Hxm. destruct (Z.eq_dec m 0) as [->|Hm0].
  { exists 0%Q. split; reflexivity. }
  destruct (cost_of_rounding m Hm Hm0)
    as (mz & ez & E & -> & Hmz & HE & Hez & Hez7 & Hbin & Hval).
  assert (1000000 * Z.abs x = Z.abs m * 2 ^ j) as Hxp.
  { assert (0 < 2 ^ j) by (apply Z.pow_pos_nonneg; lia).
    rewrite <- (Z.abs_eq (2 ^ j)) by lia.
    rewrite <- Z.abs_mul, <- Hxm, Z.abs_mul. reflexivity. }
  assert (0 < 2 ^ j) as Hpj by (apply Z.pow_pos_nonneg; lia).
  (* the quotient is an integer number of units of the binade *)
  assert (j <= - E) as HjE.
  { destruct (Z_le_gt_dec j (- E)) as [?|Hgt]; [assumption|exfalso].
    assert (2 ^ j = 2 ^ (- E) * 2 ^ (j + E)) as Hsplit.
    { rewrite <- Z.pow_add_r by lia. f_equal. lia. }
    assert (2 <= 2 ^ (j + E)) as H2.
    { change 2 with (2 ^ 1) at 1. apply Z.pow_le_mono_r; lia. }
    rewrite Hsplit in Hxp. nia. }
  assert (2 ^ (- E) = 2 ^ j * 2 ^ (- E - j)) as Hsplit.
  { rewrite <- Z.pow_add_r by lia. f_equal. lia. }
  set (y := Z.abs x * 2 ^ (- E - j)).
  assert (Z.abs m * 2 ^ (- E) = 1000000 * y) as Hy.
  { rewrite Hsplit. subst y. rewrite Z.mul_assoc, <- Hxp. lia. }
  rewrite Hy in Hval.
  assert (Z.pos mz * 2 ^ (ez - E) = y) as HV by lia.
  assert (Z.pos mz * 1000000 = Z.abs m * 2 ^ (- ez)) as Hexact.
  { assert (0 < 2 ^ (ez - E)) as Hc by (apply Z.pow_pos_nonneg; lia).
    apply (Z.mul_cancel_r _ _ (2 ^ (ez - E))); [lia|].
    rewrite <- (Z.mul_assoc (Z.abs m)), <- Z.pow_add_r by lia.
    replace (- ez + (ez - E)) with (- E) by lia. rewrite Hy, <- HV. lia. }
  destruct ez as [|k|k]; try lia. cbn [SF2Q].
  eexists. split; [reflexivity|].
  change (- Z.neg k) with (Z.pos k) in Hexact.
  unfold Qeq, Qmult, inject_Z. cbn [Qnum Qden].
  rewrite !Pos.mul_1_r, !Z.mul_1_r, Pos2Z.inj_pow.
  destruct (Z.ltb_spec m 0); lia.
Qed.

(** Rounding keeps the order of two positive amounts: the costs,
    scaled by [2^72], are ordered as the amounts are. *)
Lemma rounding_keeps_order
    (a b : Z) (mza mzb : positive) (eza ezb Ea Eb : Z) :
  0 < a < b ->
  -72 <= Ea -> Ea <= eza <= Ea + 1 -> eza <= -7 ->
  -72 <= Eb -> Eb <= ezb <= Eb + 1 -> ezb <= -7 ->
  2 ^ 52 * 1000000 <= a * 2 ^ (- Ea) < 2 ^ 53 * 1000000 ->
  2 ^ 52 * 1000000 <= b * 2 ^ (- Eb) < 2 ^ 53 * 1000000 ->
  Z.abs (Z.pos mza * 2 ^ (eza - Ea) * 1000000 - a * 2 ^ (- Ea)) * 2 <= 1000000 ->
  Z.abs (Z.pos mzb * 2 ^ (ezb - Eb) * 1000000 - b * 2 ^ (- Eb)) * 2 <= 1000000 ->
  Z.pos mza * 2 ^ (eza + 72) <= Z.pos mzb * 2 ^ (ezb + 72).
Proof.
  intros Hab HEa Heza Heza7 HEb Hezb Hezb7 Hbina Hbinb Hvala Hvalb.
  set (Va := Z.pos mza * 2 ^ (eza - Ea)) in *.
  set (Vb := Z.pos mzb * 2 ^ (ezb - Eb)) in *.
  assert (Z.pos mza * 2 ^ (eza + 72) = Va * 2 ^ (Ea + 72)) as ->.
  { subst Va. rewrite <- Z.mul_assoc, <- Z.pow_add_r by lia. do 2 f_equal. lia. }
  assert (Z.pos mzb * 2 ^ (ezb + 72) = Vb * 2 ^ (Eb + 72)) as ->.
  { subst Vb. rewrite <- Z.mul_assoc, <- Z.pow_add_r by lia. do 2 f_equal. lia. }
  clearbody Va Vb.
  change (2 ^ 52) with 4503599627370496 in *.
  change (2 ^ 53) with 9007199254740992 in *.
  assert (0 < 2 ^ (- Ea)) as HPa by (apply Z.pow_pos_nonneg; lia).
  assert (0 < 2 ^ (- Eb)) as HPb by (apply Z.pow_pos_nonneg; lia).
  assert (4503599627370496 <= Va <= 9007199254740992) as HVa by lia.
  assert (4503599627370496 <= Vb <= 9007199254740992) as HVb by lia.
  assert (Ea <= Eb) as HE.
  { destruct (Z_le_gt_dec Ea Eb) as [?|Hgt]; [assumption|exfalso].
    assert (2 ^ (- Eb) = 2 ^ (- Ea) * 2 ^ (Ea - Eb)) as Hsplit.
    { rewrite <- Z.pow_add_r by lia. f_equal. lia. }
    assert (2 <= 2 ^ (Ea - Eb)) as H2.
    { change 2 with (2 ^ 1) at 1. apply Z.pow_le_mono_r; lia. }
    rewrite Hsplit in Hbinb. nia. }
  destruct (Z.eq_dec Ea Eb) as [<-|Hne].
  - assert (Va <= Vb) by nia.
    assert (0 < 2 ^ (Ea + 72)) by (apply Z.pow_pos_nonneg; lia). nia.
  - assert (2 ^ (Eb + 72) = 2 ^ (Ea + 72) * 2 ^ (Eb - Ea)) as Hsplit.
    { rewrite <- Z.pow_add_r by lia. f_equal. lia. }
    assert (2 <= 2 ^ (Eb - Ea)) as H2.
    { change 2 with (2 ^ 1) at 1. apply Z.pow_le_mono_r; lia. }
    assert (0 < 2 ^ (Ea + 72)) by (apply Z.pow_pos_nonneg; lia).
    rewrite Hsplit. nia.
Qed.

(** The same for the costs of two amounts of one sign. *)
Lemma cost_of_keeps_order (m n : Z) :
  Ads.int64 m -> Ads.int64 n -> m <> 0 -> n <> 0 -> Z.abs m < Z.abs n ->
  exists mzm ezm mzn ezn,
    cost_of m = S754_finite (m <? 0) mzm ezm /\
    cost_of n = S754_finite (n <? 0) mzn ezn /\
    -72 <= ezm <= -7 /\ -72 <= ezn <= -7 /\
    Z.pos mzm * 2 ^ (ezm + 72) <= Z.pos mzn * 2 ^ (ezn + 72).
Proof.
  intros Hm Hn Hm0 Hn0 Hlt.
  destruct (cost_of_rounding m Hm Hm0)
    as (mzm & ezm & Em & Hcm & _ & HEm & Hezm & Hezm7 & Hbinm & Hvalm).
  destruct (cost_of_rounding n Hn Hn0)
    as (mzn & ezn & En & Hcn & _ & HEn & Hezn & Hezn7 & Hbinn & Hvaln).
  exists mzm, ezm, mzn, ezn. split; [exact Hcm|]. split; [exact Hcn|].
  split; [lia|]. split; [lia|].
  apply (rounding_keeps_order (Z.abs m) (Z.abs n) mzm mzn ezm ezn Em En);
    try assumption; lia.
Qed.

(** The number a finite binary64 value with a negative exponent denotes. *)
Lemma SF2Q_finite (s : bool) (mz : positive) (ez : Z) :
  ez < 0 ->
  SF2Q (S754_finite s mz ez)
  = Some (Qmake (if s then Z.neg mz else Z.pos mz) (Z.to_pos (2 ^ (- ez)))).
Proof.
  intros Hez. destruct ez as [|k|k]; try lia. cbn [SF2Q]. do 2 f_equal.
  change (- Z.neg k) with (Z.pos k). rewrite <- Pos2Z.inj_pow. reflexivity.
Qed.

Lemma scaled_order (x y e f : Z) :
  -72 <= e <= 0 -> -72 <= f <= 0 ->
  x * 2 ^ (e + 72) <= y * 2 ^ (f + 72) -> x * 2 ^ (- f) <= y * 2 ^ (- e).
Proof.
  intros He Hf Hle.
  assert (2 ^ (e + 72) * 2 ^ (- e) = 2 ^ 72) as HA
    by (rewrite <- Z.pow_add_r by lia; f_equal; lia).
  assert (2 ^ (f + 72) * 2 ^ (- f) = 2 ^ 72) as HC
    by (rewrite <- Z.pow_add_r by lia; f_equal; lia).
  assert (0 < 2 ^ (e + 72)) as HpA by (apply Z.pow_pos_nonneg; lia).
  assert (0 < 2 ^ (f + 72)) as HpC by (apply Z.pow_pos_nonneg; lia).
  set (A := 2 ^ (e + 72)) in *. set (B := 2 ^ (- e)) in *.
  set (C := 2 ^ (f + 72)) in *. set (D := 2 ^ (- f)) in *.
  apply (Z.mul_le_mono_pos_r _ _ (A * C)); [lia|].
  replace (x * D * (A * C)) with (x * A * (C * D)) by lia.
  replace (y * B * (A * C)) with (y * C * (A * B)) by lia.
  rewrite HA, HC. apply Z.mul_le_mono_nonneg_r; [|exact Hle].
  change (2 ^ 72) with 4722366482869645213696. lia.
Qed.

(** X13: the cost of an [int64] amount is a well-formed binary64 number
    and never an infinity or a NaN: zero micros give [+0.0], and any
    other amount gives a normal number (53 significant bits, exponent
    between -72 and -7) carrying the sign of the amount. *)
Theorem cost_is_a_normal_float (m : Z) :
  Ads.int64 m ->
  valid_binary prec emax (cost_of m) = true /\
  (m = 0 -> cost_of m = S754_zero false) /\
  (m <> 0 ->
   exists mz ez, cost_of m = S754_finite (m <? 0) mz ez /\
                 2 ^ 52 <= Z.pos mz < 2 ^ 53 /\ -72 <= ez <= -7).
Proof.
  intros Hm. destruct (Z.eq_dec m 0) as [->|Hm0].
  { split; [reflexivity|]. split; [reflexivity|done]. }
  destruct (cost_of_rounding m Hm Hm0) as (mz & ez & E & Heq & Hmz & HE & Hez & Hez7 & _).
  split; [|split; [done|intros _; exists mz, ez; repeat split; [exact Heq|lia..]]].
  rewrite Heq. cbn [valid_binary]. unfold bounded, canonical_mantissa.
  change (Z.pos (digits2_pos mz)) with (Zdigits2 (Z.pos mz)).
  rewrite (Zdigits2_eq (Z.pos mz) 52) by (change (52 + 1) with 53; lia).
  rewrite fexp_normal by lia.
  apply andb_true_intro. split; [apply Z.eqb_eq; lia|].
  apply Z.leb_le. unfold emax, prec. lia.
Qed.

(** X14: no rounding where none is needed.  When the amount over one
    million is a dyadic number [x / 2^j] with a numerator below [2^53],
    the cost denotes that number exactly; in particular an [int64]
    amount of whole currency units costs exactly that many units. *)
Theorem cost_is_exact_when_representable :
  (forall m x j,
      Ads.int64 m -> 0 <= j -> Z.abs x < 2 ^ 53 -> 1000000 * x = m * 2 ^ j ->
      exists q, SF2Q (cost_of m) = Some q /\
                (q * inject_Z 1000000 == inject_Z m)%Q) /\
  (forall units,
      Ads.int64 (1000000 * units) ->
      exists q, SF2Q (cost_of (1000000 * units)) = Some q /\
                (q == inject_Z units)%Q).
Proof.
  split; [exact cost_of_exact|].
  intros units Hm.
  destruct (cost_of_exact (1000000 * units) units 0 Hm) as (q & Hq & Hval);
    [lia| |change (2 ^ 0) with 1; lia|].
  { destruct Hm as [Hlo Hhi]. change (2 ^ 63) with 9223372036854775808 in *.
    change (2 ^ 53) with 9007199254740992. lia. }
  exists q. split; [exact Hq|].
  assert (inject_Z (1000000 * units) == inject_Z units * inject_Z 1000000)%Q as Hinj.
  { unfold Qeq, Qmult, inject_Z. cbn [Qnum Qden]. lia. }
  rewrite Hinj in Hval.
  apply (Qmult_inj_r _ _ (inject_Z 1000000)); [discriminate|exact Hval].
Qed.

(** X15: an amount and its opposite cost the same up to the sign; zero
    is the one exception, its cost staying [+0.0]. *)
Theorem cost_of_an_opposite_amount (m : Z) :
  m <> 0 -> cost_of (- m) = SFopp (cost_of m).
Proof.
  intros Hm. unfold cost_of.
  destruct m as [|p|p]; [done| |].
  - change (- Z.pos p) with (Z.neg p). unfold Z2SF, SFdiv.
    destruct (SFdiv_core_binary _ _ _ _ _ _) as [[mz ez] lz].
    apply (binary_round_aux_opp false).
  - change (- Z.neg p) with (Z.pos p). unfold Z2SF, SFdiv.
    destruct (SFdiv_core_binary _ _ _ _ _ _) as [[mz ez] lz].
    rewrite <- (binary_round_aux_opp true). reflexivity.
Qed.

(** X16: below [2^52] micros the conversion loses nothing: two
    different amounts never get the same cost. *)
Theorem different_amounts_cost_differently (m n : Z) :
  Z.abs m < 2 ^ 52 -> Z.abs n < 2 ^ 52 -> m <> n -> cost_of m <> cost_of n.
Proof.
  assert (forall z, Z.abs z < 2 ^ 52 -> Ads.int64 z) as Hint.
  { intros z Hz. unfold Ads.int64. change (2 ^ 52) with 4503599627370496 in Hz.
    change (2 ^ 63) with 9223372036854775808. lia. }
  intros Hm Hn Hne Heq. apply Hne. clear Hne.
  destruct (Z.eq_dec m 0) as [->|Hm0]; destruct (Z.eq_dec n 0) as [->|Hn0];
    [reflexivity| | |].
  - destruct (cost_of_nearest n (Hint n Hn) Hn0) as (mz & ez & Hc & _).
    rewrite Hc in Heq. discriminate.
  - destruct (cost_of_nearest m (Hint m Hm) Hm0) as (mz & ez & Hc & _).
    rewrite Hc in Heq. discriminate.
  - destruct (cost_of_nearest m (Hint m Hm) Hm0) as (mz & ez & Hc & Hez & Hb).
    destruct (cost_of_nearest n (Hint n Hn) Hn0) as (mz' & ez' & Hc' & _ & Hb').
    rewrite Hc, Hc' in Heq. injection Heq as Hsg <- <-.
    set (P := 2 ^ (- ez)) in *.
    assert (0 < P) as HP by (apply Z.pow_pos_nonneg; lia).
    change (2 ^ 53) with (2 * 2 ^ 52) in Hb, Hb'.
    set (A := Z.pos mz * 1000000) in *.
    assert (Z.abs (A - Z.abs m * P) * 2 < P) as H1 by nia.
    assert (Z.abs (A - Z.abs n * P) * 2 < P) as H2 by nia.
    assert (Z.abs m = Z.abs n) as Habs by nia.
    destruct (Z.ltb_spec m 0), (Z.ltb_spec n 0); try discriminate; lia.
Qed.

(** X17: the conversion keeps the order of amounts: of two [int64]
    amounts, the larger never gets the smaller cost. *)
Theorem cost_keeps_the_order_of_amounts (m n : Z) :
  Ads.int64 m -> Ads.int64 n -> m <= n ->
  exists qm qn,
    SF2Q (cost_of m) = Some qm /\ SF2Q (cost_of n) = Some qn /\ (qm <= qn)%Q.
Proof.
  intros Hm Hn Hle.
  destruct (Z.eq_dec m n) as [->|Hne].
  { destruct (cost_of_value n Hn) as (q & Hq & _). exists q, q.
    split; [exact Hq|]. split; [exact Hq|apply Qle_refl]. }
  assert (forall z mz ez, z <> 0 -> -72 <= ez <= -7 ->
            cost_of z = S754_finite (z <? 0) mz ez ->
            exists q, SF2Q (cost_of z) = Some q /\
                      Z.pos (Qden q) = 2 ^ (- ez) /\
                      Qnum q = if z <? 0 then Z.neg mz else Z.pos mz) as Hden.
  { intros z mz ez _ Hez ->. rewrite SF2Q_finite by lia.
    eexists. split; [reflexivity|]. cbn [Qnum Qden].
    split; [|reflexivity]. apply Z2Pos.id, Z.pow_pos_nonneg; lia. }
  destruct (Z.eq_dec m 0) as [->|Hm0]; [|destruct (Z.eq_dec n 0) as [->|Hn0]].
  - destruct (cost_of_rounding n Hn ltac:(lia))
      as (mz & ez & E & Hc & _ & HE & Hez & Hez7 & _).
    destruct (Hden n mz ez ltac:(lia) ltac:(lia) Hc) as (q & Hq & _ & Hnum).
    exists 0%Q, q. split; [reflexivity|]. split; [exact Hq|].
    unfold Qle. cbn [Qnum Qden]. rewrite Hnum.
    destruct (Z.ltb_spec n 0); lia.
  - destruct (cost_of_rounding m Hm Hm0)
      as (mz & ez & E & Hc & _ & HE & Hez & Hez7 & _).
    destruct (Hden m mz ez Hm0 ltac:(lia) Hc) as (q & Hq & _ & Hnum).
    exists q, 0%Q. split; [exact Hq|]. split; [reflexivity|].
    unfold Qle. cbn [Qnum Qden]. rewrite Hnum.
    destruct (Z.ltb_spec m 0); lia.
  - destruct (Z_lt_le_dec m 0) as [Hmneg|Hmpos];
      destruct (Z_lt_le_dec n 0) as [Hnneg|Hnpos].
    + (* both negative: the magnitudes are in the other order *)
      destruct (cost_of_keeps_order n m Hn Hm Hn0 Hm0 ltac:(lia))
        as (mzn & ezn & mzm & ezm & Hcn & Hcm & Hezn & Hezm & Hord).
      destruct (Hden m mzm ezm Hm0 Hezm Hcm) as (qm & Hqm & Hdm & Hnm).
      destruct (Hden n mzn ezn Hn0 Hezn Hcn) as (qn & Hqn & Hdn & Hnn).
      exists qm, qn. split; [exact Hqm|]. split; [exact Hqn|].
      unfold Qle. rewrite Hdm, Hdn, Hnm, Hnn.
      destruct (Z.ltb_spec m 0); [|lia]. destruct (Z.ltb_spec n 0); [|lia].
      pose proof (scaled_order _ _ ezn ezm ltac:(lia) ltac:(lia) Hord). lia.
    + (* a negative and a positive amount *)
      destruct (cost_of_rounding m Hm Hm0)
        as (mzm & ezm & Em & Hcm & _ & HEm & Hezm & Hezm7 & _).
      destruct (cost_of_rounding n Hn Hn0)
        as (mzn & ezn & En & Hcn & _ & HEn & Hezn & Hezn7 & _).
      destruct (Hden m mzm ezm Hm0 ltac:(lia) Hcm) as (qm & Hqm & Hdm & Hnm).
      destruct (Hden n mzn ezn Hn0 ltac:(lia) Hcn) as (qn & Hqn & Hdn & Hnn).
      exists qm, qn. split; [exact Hqm|]. split; [exact Hqn|].
      unfold Qle. rewrite Hnm, Hnn.
      destruct (Z.ltb_spec m 0); [|lia]. destruct (Z.ltb_spec n 0); [lia|]. lia.
    + lia.
    + destruct (cost_of_keeps_order m n Hm Hn Hm0 Hn0 ltac:(lia))
        as (mzm & ezm & mzn & ezn & Hcm & Hcn & Hezm & Hezn & Hord).
      destruct (Hden m mzm ezm Hm0 Hezm Hcm) as (qm & Hqm & Hdm & Hnm).
      destruct (Hden n mzn ezn Hn0 Hezn Hcn) as (qn & Hqn & Hdn & Hnn).
      exists qm, qn. split; [exact Hqm|]. split; [exact Hqn|].
      unfold Qle. rewrite Hdm, Hdn, Hnm, Hnn.
      destruct (Z.ltb_spec m 0); [lia|]. destruct (Z.ltb_spec n 0); [lia|].
      apply (scaled_order _ _ ezm ezn); [lia|lia|exact Hord].
Qed.

End Exactness.

(* ================================================================= *)
(** ** Laws of the monad *)

Section Frames.
Context {A B : Type}.

Lemma framed_ret (x : A) : framed (mret x : M A).
Proof. intros t. cbn. by rewrite app_nil_r. Qed.

Lemma framed_raise (e : exn) : framed (raise e : M A).
Proof. intros t. cbn. by rewrite app_nil_r. Qed.

Lemma framed_lift (r : exn + A) : framed (lift r).
Proof. intros t. cbn. by rewrite app_nil_r. Qed.

Lemma framed_emit (ev : event) : framed (emit ev).
Proof. intros t. reflexivity. Qed.

Lemma framed_bind (m : M A) (f : A -> M B) :
  framed m -> (forall x, framed (f x)) -> framed (m ≫= f).
Proof.
  intros Hm Hf t. unfold mbind, M_bind. rewrite (Hm t).
  destruct (m []) as [t0 [e|x]]; cbn [fst snd].
  - reflexivity.
  - rewrite (Hf x (t ++ t0)), (Hf x t0). cbn [fst snd]. by rewrite app_assoc.
Qed.

Lemma framed_try (body : M A) (handler : exn -> M A) :
  framed body -> (forall e, framed (handler e)) -> framed (try_except body handler).
Proof.
  intros Hm Hh t. unfold try_except. rewrite (Hm t).
  destruct (body []) as [t0 [e|x]]; cbn [fst snd].
  - rewrite (Hh e (t ++ t0)), (Hh e t0). cbn [fst snd]. by rewrite app_assoc.
  - reflexivity.
Qed.

(** Sequencing, read off the outcome of the first computation. *)
Lemma bind_run (m : M A) (f : A -> M B) (t t' : list event) (x : A) :
  m t = (t', inr x) -> (m ≫= f) t = f x t'.
Proof. intros H. unfold mbind, M_bind. by rewrite H. Qed.

Lemma framed_at (m : M A) (t t0 : list event) (r : exn + A) :
  framed m -> m [] = (t0, r) -> m t = (t ++ t0, r).
Proof. intros Hm H0. rewrite (Hm t). by rewrite H0. Qed.

Lemma bind_raise (m : M A) (f : A -> M B) (t t' : list event) (e : exn) :
  m t = (t', inl e) -> (m ≫= f) t = (t', inl e).
Proof. intros H. unfold mbind, M_bind. by rewrite H. Qed.

End Frames.

Create HintDb frame.
#[local] Hint Resolve framed_ret framed_raise framed_lift framed_emit : frame.

Ltac frame :=
  repeat first
    [ apply framed_bind; [|intros ?]
    | apply framed_try; [|intros ?]
    | solve [eauto with frame]
    | match goal with |- framed (if ?b then _ else _) => destruct b end
    | match goal with |- framed (match ?x with _ => _ end) => destruct x end ].

(* ================================================================= *)
(** ** The extractor *)

Section Extractor.
Variable py_repr : pyval -> string.

Lemma to_row_wf (row : Ads.GoogleAdsRow) (t : list event) :
  Ads.wf_row row -> to_row row t = (t, inr (warehouse_row row)).
Proof.
  intros Hwf. unfold to_row.
  erewrite bind_run; [|unfold lift; by rewrite (truediv_int64 _ Hwf)].
  reflexivity.
Qed.

(** The inner loop appends one dict per record, in order. *)
Lemma for_results_wf (rs : list Ads.GoogleAdsRow) :
  Forall Ads.wf_row rs ->
  forall acc t, for_results rs acc t = (t, inr (acc ++ map warehouse_row rs)).
Proof.
  induction 1 as [|row rs Hrow _ IH]; intros acc t; cbn [for_results map].
  - by rewrite app_nil_r.
  - erewrite bind_run; [|by apply to_row_wf].
    rewrite IH. by rewrite <- app_assoc.
Qed.

(** The outer loop does so batch after batch. *)
Lemma for_stream_wf (bs : list Ads.Batch) :
  Forall Ads.wf_batch bs ->
  forall acc t,
    for_stream (Ads.stream_of bs) acc t
    = (t, inr (acc ++ map warehouse_row (all_results bs))).
Proof.
  induction 1 as [|b bs Hb _ IH]; intros acc t; cbn [Ads.stream_of for_stream].
  - cbn. by rewrite app_nil_r.
  - erewrite bind_run; [|by apply for_results_wf].
    rewrite IH. unfold all_results. cbn [map List.concat].
    by rewrite map_app, app_assoc.
Qed.

Lemma framed_to_row (row : Ads.GoogleAdsRow) : framed (to_row row).
Proof. unfold to_row. frame. Qed.

Lemma framed_for_results (rs : list Ads.GoogleAdsRow) :
  forall acc, framed (for_results rs acc).
Proof.
  induction rs as [|row rs IH]; intros acc; cbn [for_results]; frame.
Qed.

Lemma framed_for_stream (s : Ads.Stream) : forall acc, framed (for_stream s acc).
Proof.
  induction s as [|b rest IH|e]; intros acc; cbn [for_stream]; frame.
  apply framed_for_results.
Qed.

(** The loops talk to nobody. *)
Lemma for_results_silent (rs : list Ads.GoogleAdsRow) :
  forall acc, fst (for_results rs acc []) = [].
Proof.
  induction rs as [|row rs IH]; intros acc; cbn [for_results]; [reflexivity|].
  unfold to_row, mbind, M_bind, lift.
  destruct (truediv _ _) as [e|cost]; [reflexivity|]. apply IH.
Qed.

Lemma for_stream_silent (s : Ads.Stream) :
  forall acc, fst (for_stream s acc []) = [].
Proof.
  induction s as [|b rest IH|e]; intros acc; cbn [for_stream]; try reflexivity.
  unfold mbind, M_bind.
  pose proof (for_results_silent (Ads.results b) acc) as Hb.
  destruct (for_results (Ads.results b) acc []) as [t [e|rows]];
    cbn [fst] in Hb; subst t; [reflexivity|apply IH].
Qed.

Lemma framed_fetch (env : Env) (vs ve : pyval) :
  framed (fetch_google_ads_data py_repr env vs ve).
Proof. unfold fetch_google_ads_data. frame. apply framed_for_stream. Qed.

Lemma framed_load (env : Env) (rows : list Row) :
  framed (load_data_to_bigquery py_repr env rows).
Proof. unfold load_data_to_bigquery. frame. Qed.

End Extractor.

(* ================================================================= *)
(** ** The handler, outcome by outcome *)

Section Handler.
Variable py_repr : pyval -> string.
Variable env : Env.

Local Abbreviation fmt := (format py_repr).
Local Abbreviation fetch := (fetch_google_ads_data py_repr env).
Local Abbreviation load := (load_data_to_bigquery py_repr env).
Local Abbreviation job := (run_job py_repr env).

Local Abbreviation started := (job_started py_repr env).
Local Abbreviation failed := job_failed.
Local Abbreviation client_call := (client_call_of env).
Local Abbreviation search_call := (search_call_of py_repr env).
Local Abbreviation insert_call := (insert_call_of py_repr env).

(** The extractor: one client construction, then one query, then the
    stream is drained. *)
Lemma fetch_run (vs ve : pyval) :
  run (fetch vs ve) =
  match get_service env (ADS_CONFIG_STRING env) with
  | inl e => ([client_call], inl e)
  | inr _ =>
      match search_stream env (ADS_CUSTOMER_ID env) (gaql_query py_repr vs ve) with
      | inl e => ([client_call; search_call vs ve], inl e)
      | inr s => ([client_call; search_call vs ve], snd (for_stream s [] []))
      end
  end.
Proof.
  unfold run, fetch_google_ads_data, client_call_of, search_call_of.
  unfold mbind, M_bind, emit, lift. cbn [app].
  destruct (get_service env _) as [e|[]]; [reflexivity|].
  destruct (search_stream env _ _) as [e|s]; [reflexivity|].
  rewrite (framed_for_stream s [] _), for_stream_silent. by rewrite app_nil_r.
Qed.

(** The loader: one insert call; any reported error is raised. *)
Lemma load_run (rows : list Row) :
  run (load rows) =
  match insert_rows_json env (table_id py_repr env) rows with
  | inl e => ([insert_call rows], inl e)
  | inr [] => ([insert_call rows], inr tt)
  | inr errors =>
      ([insert_call rows;
        Print ("Encountered errors while inserting rows: " +:+ fmt (PyList errors))],
       inl (Exception ("BigQuery load job failed: " +:+ fmt (PyList errors))))
  end.
Proof.
  unfold run, load_data_to_bigquery, insert_call_of.
  unfold mbind, M_bind, emit, lift. cbn [app].
  destruct (insert_rows_json env _ rows) as [e|[|err errs]]; reflexivity.
Qed.

Lemma truthy_dict (d : gmap string pyval) (k : string) (v : pyval) :
  d !! k = Some v -> truthy (PyDict d) = true.
Proof.
  intros H. cbn. rewrite bool_decide_eq_false_2; [done|].
  intros ->. by rewrite lookup_empty in H.
Qed.

Lemma request_rejected_dict (d : gmap string pyval) (vs ve : pyval) (t : list event) :
  carries_dates d vs ve -> request_rejected (PyDict d) t = (t, inr false).
Proof.
  intros [Hs He]. unfold request_rejected.
  rewrite (truthy_dict d _ _ Hs). cbn [negb].
  unfold contains. rewrite !bool_decide_eq_true_2 by eauto. reflexivity.
Qed.

(** A JSON object carrying both dates passes validation, and the rest
    of the handler is decided by the extractor and the loader. *)
Lemma run_job_validated (d : gmap string pyval) (vs ve : pyval) :
  carries_dates d vs ve ->
  run (job (Json (PyDict d))) =
  match run (fetch vs ve) with
  | (tf, inl e) =>
      (started vs ve :: tf ++ [failed e],
       inr ("An error occurred: " +:+ exn_str e, 500))
  | (tf, inr []) =>
      (started vs ve :: tf ++ [Print "No data returned from Google Ads."],
       inr ("Successfully completed. No data to load.", 200))
  | (tf, inr ads_data) =>
      match run (load ads_data) with
      | (tl, inl e) =>
          (started vs ve :: tf ++ tl ++ [failed e],
           inr ("An error occurred: " +:+ exn_str e, 500))
      | (tl, inr _) =>
          (started vs ve :: tf ++ tl ++
             [Print ("Successfully loaded " +:+ fmt (PyInt (len ads_data))
                     +:+ " rows into BigQuery.")],
           inr ("Success: Loaded " +:+ fmt (PyInt (len ads_data)) +:+ " rows.", 200))
      end
  end.
Proof.
  intros [Hs He]. unfold run, run_job. cbn [get_json_silent].
  erewrite bind_run by (by apply request_rejected_dict with vs ve).
  cbn iota.
  erewrite bind_run by (unfold lift, getitem; by rewrite Hs).
  erewrite bind_run by (unfold lift, getitem; by rewrite He).
  erewrite bind_run by reflexivity.
  cbn [app]. fold (job_started py_repr env vs ve). unfold try_except.
  destruct (fetch vs ve []) as [tf [e|ads_data]] eqn:Hf.
  - erewrite bind_raise by (eapply framed_at; [apply framed_fetch|exact Hf]).
    reflexivity.
  - erewrite bind_run by (eapply framed_at; [apply framed_fetch|exact Hf]).
    destruct ads_data as [|row rows]; [reflexivity|].
    cbn [fmap list_fmap truthy negb].
    destruct (load (row :: rows) []) as [tl [e|[]]] eqn:Hl.
    + erewrite bind_raise by (eapply framed_at; [apply framed_load|exact Hl]).
      unfold job_failed, mbind, M_bind, emit, respond, mret, M_ret.
      cbn [app]. by rewrite <- !app_assoc.
    + erewrite bind_run by (eapply framed_at; [apply framed_load|exact Hl]).
      unfold mbind, M_bind, emit, respond, mret, M_ret.
      cbn [app]. by rewrite <- !app_assoc.
Qed.

End Handler.

(* ================================================================= *)
(** ** Strings and numerals *)

Section Strings.

Lemma append_cons (x : ascii) (a b : string) :
  String x a +:+ b = String x (a +:+ b).
Proof. reflexivity. Qed.

Lemma append_assoc (a b c : string) : (a +:+ b) +:+ c = a +:+ b +:+ c.
Proof.
  induction a as [|x a IH]; [reflexivity|].
  rewrite !append_cons. by rewrite IH.
Qed.

Lemma prefix_append (k s : string) : String.prefix k (k +:+ s) = true.
Proof.
  induction k as [|x k IH]; [by destruct s|].
  rewrite append_cons. cbn.
  destruct (ascii_dec x x) as [_|Hne]; [exact IH|by destruct Hne].
Qed.

Lemma is_infix_here (k s : string) : is_infix k (k +:+ s) = true.
Proof.
  pose proof (prefix_append k s) as H.
  destruct (k +:+ s); cbn [is_infix]; by rewrite H.
Qed.

Lemma is_infix_later (k a s : string) : is_infix k s = true -> is_infix k (a +:+ s) = true.
Proof.
  intros H. induction a as [|x a IH]; [exact H|].
  rewrite append_cons. cbn [is_infix]. rewrite IH. apply orb_true_r.
Qed.

(** A string occurs in whatever is built around it. *)
Lemma is_infix_middle (k a b : string) : is_infix k (a +:+ k +:+ b) = true.
Proof. apply is_infix_later, is_infix_here. Qed.

(** The decimal numeral of an integer reads back as that integer. *)
Lemma parse_int_str_int (z : Z) : parse_int (str_int z) = Some z.
Proof.
  unfold parse_int, str_int. rewrite NilZero.isi.
  - cbn. by rewrite DecimalZ.of_to.
  - destruct z; cbn; try discriminate.
    intros [= E]. by apply DecimalPos.Unsigned.to_uint_nonnil in E.
  - destruct z; cbn; try discriminate.
    intros [= E]. by apply DecimalPos.Unsigned.to_uint_nonnil in E.
Qed.

(** Reading a text made of two parts. *)
Lemma scan_app (a b : string) :
  forall st,
    scan st (a +:+ b)
    = let '(ws, st') := scan st a in
      let '(ws', st'') := scan st' b in (ws ++ ws', st'').
Proof.
  induction a as [|c a IH]; intros st.
  - cbn [scan]. change ("" +:+ b) with b. by destruct (scan st b).
  - rewrite append_cons. cbn [scan]. destruct (is_space c).
    + rewrite IH. destruct (scan None a) as [ws st'].
      destruct (scan st' b) as [ws' st'']. by rewrite app_assoc.
    + apply IH.
Qed.

(** Two texts made of the same parts have the same words when their
    openings read alike and their endings close the last word alike. *)
Lemma words_of_parts (p1 p2 a m b t1 t2 : string) :
  scan None p1 = scan None p2 ->
  (forall st, (let '(ws, st') := scan st t1 in ws ++ flush st')
              = (let '(ws, st') := scan st t2 in ws ++ flush st')) ->
  words (p1 +:+ a +:+ m +:+ b +:+ t1) = words (p2 +:+ a +:+ m +:+ b +:+ t2).
Proof.
  intros Hp Ht. unfold words. rewrite (scan_app p1), (scan_app p2), Hp.
  destruct (scan None p2) as [w0 s0].
  rewrite !(scan_app a). destruct (scan s0 a) as [w1 s1].
  rewrite !(scan_app m). destruct (scan s1 m) as [w2 s2].
  rewrite !(scan_app b). destruct (scan s2 b) as [w3 s3].
  specialize (Ht s3).
  destruct (scan s3 t1) as [w4 s4]. destruct (scan s3 t2) as [w4' s4'].
  repeat rewrite <- app_assoc. by rewrite Ht.
Qed.

End Strings.

(* ================================================================= *)
(** ** Properties of the job *)

Section Job.
Variable py_repr : pyval -> string.

Local Abbreviation fmt := (format py_repr).
Local Abbreviation fetch := (fetch_google_ads_data py_repr).
Local Abbreviation load := (load_data_to_bigquery py_repr).
Local Abbreviation job := (run_job py_repr).
Local Abbreviation query := (gaql_query py_repr).

(** When the platform answers with whole batches, the extractor returns
    one row per record. *)
Lemma fetch_of_batches (env : Env) (vs ve : pyval) (bs : list Ads.Batch) :
  Forall Ads.wf_batch bs ->
  get_service env (ADS_CONFIG_STRING env) = inr tt ->
  search_stream env (ADS_CUSTOMER_ID env) (query vs ve) = inr (Ads.stream_of bs) ->
  run (fetch env vs ve)
  = ([client_call_of env; search_call_of py_repr env vs ve],
     inr (map warehouse_row (all_results bs))).
Proof.
  intros Hwf Hc Hs. rewrite fetch_run, Hc, Hs.
  by rewrite (for_stream_wf bs Hwf [] []).
Qed.

Lemma warehouse_row_dom (r : Ads.GoogleAdsRow) :
  dom (warehouse_row r) = warehouse_fields.
Proof.
  unfold warehouse_row, warehouse_fields. cbn [list_to_map foldr uncurry fst snd].
  rewrite !dom_insert_L, dom_empty_L. set_solver.
Qed.

(** C6: for every sequence of result batches, the extractor's output is
    the concatenation, batch after batch and record after record, of one
    warehouse row per record: the platform's order is kept and nothing
    is dropped, repeated or merged. *)
Theorem extractor_preserves_platform_order
    (env : Env) (vs ve : pyval) (bs : list Ads.Batch) :
  Forall Ads.wf_batch bs ->
  get_service env (ADS_CONFIG_STRING env) = inr tt ->
  search_stream env (ADS_CUSTOMER_ID env) (query vs ve) = inr (Ads.stream_of bs) ->
  exists rows,
    snd (run (fetch env vs ve)) = inr rows /\
    rows = List.concat (map (fun b => map warehouse_row (Ads.results b)) bs) /\
    length rows = length (all_results bs) /\
    forall i r, all_results bs !! i = Some r -> rows !! i = Some (warehouse_row r).
Proof.
  intros Hwf Hc Hs. exists (map warehouse_row (all_results bs)).
  rewrite (fetch_of_batches env vs ve bs Hwf Hc Hs). cbn [snd].
  repeat split.
  - unfold all_results. clear. induction bs as [|b bs IH]; [reflexivity|].
    cbn [map List.concat]. by rewrite map_app, IH.
  - by rewrite length_map.
  - intros i r Hi. change (map warehouse_row) with (fmap (M:=list) warehouse_row).
    by rewrite list_lookup_fmap, Hi.
Qed.

(** C7: every extracted record becomes a dict with exactly the six
    fields event_date, external_customer_id, campaign_id,
    ad_network_type, device and cost; device and ad_network_type hold
    the enum member's name, not its numeric value. *)
Theorem row_has_the_six_warehouse_fields (row : Ads.GoogleAdsRow) (t : list event) :
  Ads.wf_row row ->
  exists d,
    to_row row t = (t, inr d) /\
    dom d = warehouse_fields /\ size d = 6%nat /\
    d !! "event_date" = Some (PyStr (Ads.date (Ads.segments row))) /\
    d !! "external_customer_id" = Some (PyInt (Ads.customer_id (Ads.customer row))) /\
    d !! "campaign_id" = Some (PyInt (Ads.campaign_id (Ads.campaign row))) /\
    d !! "ad_network_type"
      = Some (PyStr (Ads.name (Ads.ad_network_type (Ads.segments row)))) /\
    d !! "device" = Some (PyStr (Ads.name (Ads.device (Ads.segments row)))) /\
    d !! "cost" = Some (PyFloat (cost_of (Ads.cost_micros (Ads.metrics row)))) /\
    d !! "ad_network_type"
      <> Some (PyInt (Ads.value (Ads.ad_network_type (Ads.segments row)))) /\
    d !! "device" <> Some (PyInt (Ads.value (Ads.device (Ads.segments row)))).
Proof.
  intros Hwf. exists (warehouse_row row). split; [by apply to_row_wf|].
  split; [apply warehouse_row_dom|].
  split.
  { rewrite <- size_dom, warehouse_row_dom. reflexivity. }
  unfold warehouse_row. cbn [list_to_map foldr uncurry fst snd].
  repeat split; try (by simplify_map_eq); by simplify_map_eq.
Qed.

Lemma all_results_empty (bs : list Ads.Batch) :
  Forall (fun b => Ads.results b = []) bs ->
  all_results bs = [] /\ Forall Ads.wf_batch bs.
Proof.
  unfold all_results, Ads.wf_batch.
  induction 1 as [|b bs Hb _ [IH1 IH2]]; [by split|].
  cbn [map List.concat]. rewrite Hb, IH1. split; [reflexivity|].
  constructor; [rewrite Hb; constructor|exact IH2].
Qed.

(** C2: a request carrying both dates for which the platform returns no
    record is answered 200 "Successfully completed. No data to load.",
    and the warehouse client is never called. *)
Theorem no_records_no_load
    (env : Env) (d : gmap string pyval) (vs ve : pyval) (bs : list Ads.Batch) :
  carries_dates d vs ve ->
  get_service env (ADS_CONFIG_STRING env) = inr tt ->
  search_stream env (ADS_CUSTOMER_ID env) (query vs ve) = inr (Ads.stream_of bs) ->
  Forall (fun b => Ads.results b = []) bs ->
  exists t,
    run (job env (Json (PyDict d)))
    = (t, inr ("Successfully completed. No data to load.", 200)) /\
    calls is_loader_call t = 0%nat.
Proof.
  intros Hd Hc Hs Hempty.
  destruct (all_results_empty bs Hempty) as [Hnil Hwf].
  rewrite (run_job_validated py_repr env d vs ve Hd).
  rewrite (fetch_of_batches env vs ve bs Hwf Hc Hs), Hnil. cbn [map].
  eexists. split; [reflexivity|reflexivity].
Qed.

(** C5: when the extractor returns a non-empty sequence and the insert
    reports no error, the answer is 200 "Success: Loaded N rows." where
    N is the decimal numeral of the length of that sequence. *)
Theorem success_reports_row_count
    (env : Env) (d : gmap string pyval) (vs ve : pyval)
    (tf : list event) (rows : list Row) :
  carries_dates d vs ve ->
  run (fetch env vs ve) = (tf, inr rows) ->
  rows <> [] ->
  insert_rows_json env (table_id py_repr env) rows = inr [] ->
  exists t N,
    run (job env (Json (PyDict d)))
    = (t, inr ("Success: Loaded " +:+ N +:+ " rows.", 200)) /\
    parse_int N = Some (Z.of_nat (length rows)).
Proof.
  intros Hd Hf Hne Hins.
  rewrite (run_job_validated py_repr env d vs ve Hd), Hf.
  destruct rows as [|row rows]; [done|].
  rewrite load_run, Hins.
  eexists; exists (str_int (len (row :: rows))). split; [reflexivity|].
  apply parse_int_str_int.
Qed.

(** C4: when the insert call returns a non-empty list of per-row errors
    for a non-empty batch of rows, the loader raises an exception whose
    text carries the reported errors, and the service answers 500 with
    that text in the body; no success status is returned. *)
Theorem insert_errors_fail_the_job
    (env : Env) (d : gmap string pyval) (vs ve : pyval)
    (tf : list event) (rows : list Row) (errors : list pyval) :
  carries_dates d vs ve ->
  run (fetch env vs ve) = (tf, inr rows) ->
  rows <> [] ->
  insert_rows_json env (table_id py_repr env) rows = inr errors ->
  errors <> [] ->
  let reported := fmt (PyList errors) in
  let failure := Exception ("BigQuery load job failed: " +:+ reported) in
  snd (run (load env rows)) = inl failure /\
  exists t body,
    run (job env (Json (PyDict d))) = (t, inr (body, 500)) /\
    body = "An error occurred: " +:+ exn_str failure /\
    is_infix reported body = true /\
    calls is_loader_call t = 1%nat.
Proof.
  intros Hd Hf Hne Hins Herr reported failure.
  assert (run (load env rows)
          = ([insert_call_of py_repr env rows;
              Print ("Encountered errors while inserting rows: " +:+ reported)],
             inl failure)) as Hl.
  { rewrite load_run, Hins. by destruct errors. }
  split; [by rewrite Hl|].
  rewrite (run_job_validated py_repr env d vs ve Hd), Hf.
  destruct rows as [|row rows]; [done|]. rewrite Hl.
  eexists; eexists. split; [reflexivity|]. split; [reflexivity|]. split.
  - cbn [exn_str failure Exception]. rewrite <- append_assoc.
    pose proof (is_infix_middle reported
                  ("An error occurred: " +:+ "BigQuery load job failed: ") "") as H.
    replace (reported +:+ "") with reported in H; [exact H|].
    clear. induction reported as [|x r IH]; [reflexivity|].
    by rewrite append_cons, <- IH.
  - pose proof (fetch_run py_repr env vs ve) as Hr. rewrite Hf in Hr.
    destruct (get_service env _) as [e|[]]; [by inversion Hr|].
    destruct (search_stream env _ _) as [e|s]; inversion Hr; reflexivity.
Qed.

Lemma calls_app (p : event -> bool) (a b : list event) :
  calls p (a ++ b) = (calls p a + calls p b)%nat.
Proof. unfold calls. by rewrite List.filter_app, length_app. Qed.

(** The extractor builds the client once, queries at most once and
    never touches the warehouse. *)
Lemma fetch_calls (env : Env) (vs ve : pyval) :
  let t := fst (run (fetch env vs ve)) in
  calls is_client_call t = 1%nat /\ (calls is_search_call t <= 1)%nat /\
  calls is_loader_call t = 0%nat.
Proof.
  rewrite fetch_run.
  destruct (get_service env _) as [e|[]]; [cbn; lia|].
  destruct (search_stream env _ _) as [e|s]; cbn; lia.
Qed.

Lemma fetch_calls_ok (env : Env) (vs ve : pyval) (tf : list event) (rows : list Row) :
  run (fetch env vs ve) = (tf, inr rows) ->
  calls is_client_call tf = 1%nat /\ calls is_search_call tf = 1%nat /\
  calls is_loader_call tf = 0%nat.
Proof.
  rewrite fetch_run.
  destruct (get_service env _) as [e|[]]; [by intros [=]|].
  destruct (search_stream env _ _) as [e|s]; intros [= <- _]; by cbn.
Qed.

(** The loader calls the warehouse once and nothing else. *)
Lemma load_calls (env : Env) (rows : list Row) :
  let t := fst (run (load env rows)) in
  calls is_client_call t = 0%nat /\ calls is_search_call t = 0%nat /\
  calls is_loader_call t = 1%nat.
Proof.
  rewrite load_run.
  destruct (insert_rows_json env _ rows) as [e|[|err errs]]; by cbn.
Qed.

(** C9: for a validated request, whatever exception the extractor or
    the loader raises (a client that cannot be built from its
    configuration included) is answered 500 with the body
    "An error occurred: " followed by the exception's own text; nothing
    is called twice, and when the extractor fails the warehouse is not
    called at all. *)
Theorem failures_are_answered_500
    (env : Env) (d : gmap string pyval) (vs ve : pyval) :
  carries_dates d vs ve ->
  (forall e, get_service env (ADS_CONFIG_STRING env) = inl e ->
             run (fetch env vs ve) = ([client_call_of env], inl e)) /\
  (forall tf e,
      run (fetch env vs ve) = (tf, inl e) ->
      exists t,
        run (job env (Json (PyDict d)))
        = (t, inr ("An error occurred: " +:+ exn_str e, 500)) /\
        calls is_loader_call t = 0%nat /\
        calls is_client_call t = 1%nat /\ (calls is_search_call t <= 1)%nat) /\
  (forall tf rows tl e,
      run (fetch env vs ve) = (tf, inr rows) -> rows <> [] ->
      run (load env rows) = (tl, inl e) ->
      exists t,
        run (job env (Json (PyDict d)))
        = (t, inr ("An error occurred: " +:+ exn_str e, 500)) /\
        calls is_loader_call t = 1%nat /\
        calls is_client_call t = 1%nat /\ calls is_search_call t = 1%nat).
Proof.
  intros Hd. split; [|split].
  - intros e He. by rewrite fetch_run, He.
  - intros tf e Hf. rewrite (run_job_validated py_repr env d vs ve Hd), Hf.
    eexists. split; [reflexivity|].
    pose proof (fetch_calls env vs ve) as Hc. rewrite Hf in Hc. cbn [fst] in Hc.
    change (job_started py_repr env vs ve :: tf ++ [job_failed e])
      with ([job_started py_repr env vs ve] ++ tf ++ [job_failed e]).
    rewrite !calls_app. cbn. lia.
  - intros tf rows tl e Hf Hne Hl.
    rewrite (run_job_validated py_repr env d vs ve Hd), Hf.
    destruct rows as [|row rows]; [done|]. rewrite Hl.
    eexists. split; [reflexivity|].
    pose proof (fetch_calls_ok env vs ve tf _ Hf) as Hc.
    pose proof (load_calls env (row :: rows)) as Hlc. rewrite Hl in Hlc.
    cbn [fst] in Hlc.
    change (job_started py_repr env vs ve :: tf ++ tl ++ [job_failed e])
      with ([job_started py_repr env vs ve] ++ tf ++ tl ++ [job_failed e]).
    rewrite !calls_app. cbn. lia.
Qed.

(** Up to layout, the query is the report statement of the
    specification over the six fields, the campaign resource and the
    date-range condition. *)
Lemma query_words (vs ve : pyval) :
  words (query vs ve)
  = words (report_statement selected_fields "campaign"
             (between_filter (fmt vs) (fmt ve))).
Proof.
  apply (words_of_parts
           (select_from +:+ "        WHERE segments.date BETWEEN '")
           "SELECT campaign.id, segments.date, metrics.cost_micros, segments.device, segments.ad_network_type, customer.id FROM campaign WHERE segments.date BETWEEN '"
           (fmt vs) "' AND '" (fmt ve)
           ("'" +:+ nl +:+ "    ") "'").
  - vm_compute. reflexivity.
  - intros [w|]; reflexivity.
Qed.

(** C8: for a validated request, the query handed to the reporting
    service is the [SELECT] of the six report fields followed by the
    condition [BETWEEN 'start' AND 'end'] in which the two payload values
    stand as they format: a string is interpolated verbatim, whatever it
    contains.  Word for word the query is the statement that selects
    campaign id, date, cost, device segment, network-type segment and
    account id from the campaign resource under that condition. *)
Theorem query_interpolates_the_dates
    (env : Env) (d : gmap string pyval) (vs ve : pyval) :
  carries_dates d vs ve ->
  get_service env (ADS_CONFIG_STRING env) = inr tt ->
  (exists rest,
      fst (run (job env (Json (PyDict d))))
      = [job_started py_repr env vs ve; client_call_of env;
         SearchStream (ADS_CUSTOMER_ID env) (query vs ve)] ++ rest /\
      calls is_search_call rest = 0%nat) /\
  query vs ve
  = select_from +:+ "        " +:+ between_filter (fmt vs) (fmt ve)
    +:+ nl +:+ "    " /\
  (forall first last, vs = PyStr first -> ve = PyStr last ->
      is_infix (between_filter first last) (query vs ve) = true) /\
  Forall (fun field => is_infix field select_from = true) selected_fields /\
  words (query vs ve)
  = words (report_statement selected_fields "campaign"
             (between_filter (fmt vs) (fmt ve))).
Proof.
  intros Hd Hc.
  assert (query vs ve
          = select_from +:+ "        " +:+ between_filter (fmt vs) (fmt ve)
            +:+ nl +:+ "    ") as Hq.
  { unfold gaql_query, between_filter. f_equal.
    change ("        WHERE segments.date BETWEEN '" +:+ fmt vs +:+ "' AND '"
            +:+ fmt ve +:+ "'" +:+ nl +:+ "    ")
      with ("        " +:+ ("WHERE segments.date BETWEEN '" +:+ fmt vs +:+ "' AND '"
            +:+ fmt ve +:+ "'" +:+ nl +:+ "    ")).
    f_equal. by rewrite !append_assoc. }
  split; [|split; [exact Hq|split]].
  - rewrite (run_job_validated py_repr env d vs ve Hd), fetch_run, Hc.
    unfold search_call_of.
    destruct (search_stream env _ _) as [e|s].
    + eexists. split; [reflexivity|reflexivity].
    + destruct (for_stream s [] []) as [t0 [e|[|row rows]]]; cbn [snd].
      * eexists. split; [reflexivity|reflexivity].
      * eexists. split; [reflexivity|reflexivity].
      * pose proof (load_calls env (row :: rows)) as Hl.
        destruct (run (load env (row :: rows))) as [tl [e|u]]; cbn [fst] in Hl.
        -- eexists. split; [reflexivity|]. rewrite calls_app. cbn. lia.
        -- eexists. split; [reflexivity|]. rewrite calls_app. cbn. lia.
  - intros first last -> ->. rewrite Hq. cbn [format].
    rewrite <- (append_assoc select_from "        ").
    apply is_infix_middle.
  - split; [|apply query_words].
    unfold selected_fields. repeat constructor; vm_compute; reflexivity.
Qed.

(** C3 (where the code departs from it): a payload that is not a JSON
    object has neither date field, yet it is not answered 400.  The
    number 5 stops at the membership test; a string or a list that
    mentions both field names passes the test and stops at the
    subscript.  In each case an exception leaves the handler and no
    response is produced. *)
Theorem non_object_payloads_are_not_rejected (env : Env) :
  let unanswered v :=
    exists e, run (job env (Json v)) = ([], inl e) /\ exn_class e = "TypeError" in
  unanswered (PyInt 5) /\
  unanswered (PyStr "start_date end_date") /\
  unanswered (PyList [PyStr "start_date"; PyStr "end_date"]).
Proof.
  cbv zeta. repeat split; eexists; (split; [vm_compute; reflexivity|reflexivity]).
Qed.

(** What the validator does reject: no JSON body, a body that does not
    parse, a falsy payload, and a JSON object lacking one of the dates. *)
Lemma missing_dates_are_rejected (env : Env) (body : RequestBody) :
  body = Absent \/ body = Unparsable \/
  (exists v, body = Json v /\ truthy v = false) \/
  (exists d, body = Json (PyDict d) /\
             (d !! "start_date" = None \/ d !! "end_date" = None)) ->
  run (job env body) = ([], inr (invalid_request_message, 400)).
Proof.
  intros [->|[->|[(v & -> & Hv)|(d & -> & Hd)]]]; try reflexivity.
  - unfold run, run_job, request_rejected. cbn [get_json_silent].
    by rewrite Hv.
  - unfold run, run_job, request_rejected. cbn [get_json_silent].
    destruct (truthy (PyDict d)); [|reflexivity]. cbn [negb].
    unfold contains, lift, mbind, M_bind.
    destruct (d !! "start_date") as [vs|] eqn:Hs.
    + destruct Hd as [Hd|Hd]; [done|]. rewrite Hd.
      rewrite bool_decide_eq_true_2 by eauto.
      rewrite bool_decide_eq_false_2 by (by intros [? ?]). reflexivity.
    + rewrite bool_decide_eq_false_2 by (by intros [? ?]). reflexivity.
Qed.

(** A truthy payload on which the membership test raises makes the
    handler raise, before anything is called. *)
Lemma membership_error_escapes (env : Env) (v : pyval) (e : exn) :
  truthy v = true -> contains "start_date" v = inl e ->
  run (job env (Json v)) = ([], inl e).
Proof.
  intros Ht Hc. unfold run, run_job, request_rejected.
  cbn [get_json_silent]. rewrite Ht. cbn [negb].
  unfold lift, mbind, M_bind. by rewrite Hc.
Qed.

(** C10: some valid JSON bodies parse to a truthy value that is not a
    container (the number 5, the literal true); for them the test
    ['start_date' not in request_json] raises TypeError before the
    [try] block is entered, so the handler returns nothing: neither the
    400 of the validator nor the 500 of the [except] clause. *)
Theorem truthy_scalar_raises_before_try (env : Env) :
  let escapes v :=
    truthy v = true /\
    exists e, contains "start_date" v = inl e /\ exn_class e = "TypeError" /\
              run (job env (Json v)) = ([], inl e) /\
              response_of (run (job env (Json v))) = None in
  escapes (PyInt 5) /\ escapes (PyBool true).
Proof.
  cbv zeta. split.
  - split; [reflexivity|].
    exists (TypeError "argument of type 'int' is not iterable").
    split; [reflexivity|split; [reflexivity|]].
    rewrite (membership_error_escapes env (PyInt 5) _ eq_refl eq_refl).
    split; reflexivity.
  - split; [reflexivity|].
    exists (TypeError "argument of type 'bool' is not iterable").
    split; [reflexivity|split; [reflexivity|]].
    rewrite (membership_error_escapes env (PyBool true) _ eq_refl eq_refl).
    split; reflexivity.
Qed.

Lemma all_results_wf (bs : list Ads.Batch) :
  Forall Ads.wf_batch bs -> Forall Ads.wf_row (all_results bs).
Proof.
  unfold all_results. induction 1 as [|b bs Hb _ IH]; [constructor|].
  cbn [map List.concat]. apply Forall_app. by split.
Qed.

Lemma warehouse_row_cost (r : Ads.GoogleAdsRow) :
  Ads.wf_row r -> cost_matches r (warehouse_row r).
Proof.
  intros Hwf. unfold cost_matches.
  destruct (cost_of_value _ Hwf) as (q & Hq & Hval).
  exists (cost_of (Ads.cost_micros (Ads.metrics r))), q.
  split; [|split; [by apply truediv_int64|by split]].
  unfold warehouse_row. cbn [list_to_map foldr uncurry fst snd].
  by simplify_map_eq.
Qed.

Lemma warehouse_rows_cost (rs : list Ads.GoogleAdsRow) :
  Forall Ads.wf_row rs -> Forall2 cost_matches rs (map warehouse_row rs).
Proof.
  induction 1 as [|r rs Hr _ IH]; cbn [map]; constructor;
    [by apply warehouse_row_cost|exact IH].
Qed.

(** C1: the rows the warehouse client receives are, record for record,
    those of the platform with cost = cost_micros / 1_000_000, the
    division being Python's float division; two records of 1500000 and
    2000000 micros arrive as exactly two rows costing 1.5 and 2.0. *)
Theorem cost_is_micros_over_a_million
    (env : Env) (d : gmap string pyval) (vs ve : pyval) (bs : list Ads.Batch) :
  carries_dates d vs ve ->
  Forall Ads.wf_batch bs ->
  get_service env (ADS_CONFIG_STRING env) = inr tt ->
  search_stream env (ADS_CUSTOMER_ID env) (query vs ve) = inr (Ads.stream_of bs) ->
  all_results bs <> [] ->
  exists rows before after,
    fst (run (job env (Json (PyDict d))))
    = before ++ InsertRowsJson (table_id py_repr env) rows :: after /\
    calls is_loader_call before = 0%nat /\ calls is_loader_call after = 0%nat /\
    Forall2 cost_matches (all_results bs) rows /\
    (forall r1 r2,
        all_results bs = [r1; r2] ->
        Ads.cost_micros (Ads.metrics r1) = 1500000 ->
        Ads.cost_micros (Ads.metrics r2) = 2000000 ->
        exists w1 w2,
          rows = [w1; w2] /\
          w1 !! "cost" = Some (PyFloat float_1_5) /\
          w2 !! "cost" = Some (PyFloat float_2_0)) /\
    (exists q1 q2, SF2Q float_1_5 = Some q1 /\ SF2Q float_2_0 = Some q2 /\
                   (q1 == 3 # 2)%Q /\ (q2 == 2 # 1)%Q).
Proof.
  intros Hd Hwf Hc Hs Hne.
  pose proof (fetch_of_batches env vs ve bs Hwf Hc Hs) as Hf.
  pose proof (run_job_validated py_repr env d vs ve Hd) as Hrun.
  pose proof (all_results_wf bs Hwf) as Hall.
  rewrite Hf in Hrun. clear Hf.
  destruct (all_results bs) as [|r0 rs0]; [done|].
  set (rows := map warehouse_row (r0 :: rs0)) in *.
  cbn [map] in rows. rewrite load_run in Hrun.
  exists rows,
         [job_started py_repr env vs ve; client_call_of env;
          search_call_of py_repr env vs ve].
  assert (exists after,
             fst (run (job env (Json (PyDict d))))
             = [job_started py_repr env vs ve; client_call_of env;
                search_call_of py_repr env vs ve]
               ++ InsertRowsJson (table_id py_repr env) rows :: after /\
             calls is_loader_call after = 0%nat) as (after & Hfst & Hafter).
  { rewrite Hrun.
    destruct (insert_rows_json env _ rows) as [e|[|err errs]];
      eexists; (split; [reflexivity|reflexivity]). }
  exists after. split; [exact Hfst|]. split; [reflexivity|]. split; [exact Hafter|].
  split; [|split].
  - by apply (warehouse_rows_cost (r0 :: rs0)).
  - intros r1 r2 [= -> ->] H1 H2. subst rows. cbn [map].
    exists (warehouse_row r1), (warehouse_row r2). split; [reflexivity|].
    unfold warehouse_row. cbn [list_to_map foldr uncurry fst snd].
    rewrite H1, H2. split; by simplify_map_eq.
  - eexists; eexists. split; [reflexivity|]. split; [reflexivity|].
    split; reflexivity.
Qed.

End Job.

(* ================================================================= *)
(** ** Further properties of the handler *)

Section Validation.
Variable py_repr : pyval -> string.

Local Abbreviation fmt := (format py_repr).
Local Abbreviation fetch := (fetch_google_ads_data py_repr).
Local Abbreviation load := (load_data_to_bigquery py_repr).
Local Abbreviation job := (run_job py_repr).
Local Abbreviation query := (gaql_query py_repr).

(** A JSON object lacking one of the dates is turned away. *)
Lemma object_lacking_a_date (env : Env) (d : gmap string pyval) :
  d !! "start_date" = None \/ d !! "end_date" = None ->
  run (job env (Json (PyDict d))) = ([], inr (invalid_request_message, 400)).
Proof.
  intros Hd. unfold run, run_job, request_rejected. cbn [get_json_silent].
  destruct (truthy (PyDict d)); [|reflexivity]. cbn [negb].
  unfold contains, lift, mbind, M_bind.
  destruct (d !! "start_date") as [vs|] eqn:Hs.
  - destruct Hd as [Hd|Hd]; [done|]. rewrite Hd.
    rewrite bool_decide_eq_true_2 by eauto.
    rewrite bool_decide_eq_false_2 by (by intros [? ?]). reflexivity.
  - rewrite bool_decide_eq_false_2 by (by intros [? ?]). reflexivity.
Qed.

(** An object either lacks a date or carries both. *)
Lemma object_dates (d : gmap string pyval) :
  (d !! "start_date" = None \/ d !! "end_date" = None) \/
  exists vs ve, carries_dates d vs ve.
Proof.
  unfold carries_dates.
  destruct (d !! "start_date") as [vs|]; [|by left; left].
  destruct (d !! "end_date") as [ve|]; [|by left; right].
  right. by exists vs, ve.
Qed.

(** Once validation is passed, the start line is printed, the client is
    built, and the handler answers 200 or 500. *)
Lemma run_job_answers (env : Env) (d : gmap string pyval) (vs ve : pyval) :
  carries_dates d vs ve ->
  exists rest body status,
    run (job env (Json (PyDict d)))
    = (job_started py_repr env vs ve :: client_call_of env :: rest,
       inr (body, status)) /\
    (status = 200 \/ status = 500).
Proof.
  intros Hd. rewrite (run_job_validated py_repr env d vs ve Hd), fetch_run.
  destruct (get_service env _) as [e|[]]; [by eexists _, _, _; split; [|right]|].
  destruct (search_stream env _ _) as [e|s]; [by eexists _, _, _; split; [|right]|].
  destruct (snd (for_stream s [] [])) as [e|[|row rows]];
    [by eexists _, _, _; split; [|right]|by eexists _, _, _; split; [|left]|].
  destruct (run (load env (row :: rows))) as [tl [e|u]];
    [by eexists _, _, _; split; [|right]|by eexists _, _, _; split; [|left]].
Qed.

(** A payload that is not an object is either turned away or makes the
    handler raise [TypeError], in both cases before anything happens. *)
Lemma run_job_non_object (env : Env) (v : pyval) :
  is_object v = false ->
  run (job env (Json v)) = ([], inr (invalid_request_message, 400)) \/
  truthy v = true /\
  exists e, run (job env (Json v)) = ([], inl e) /\ exn_class e = "TypeError".
Proof.
  intros Hv. unfold run, run_job, request_rejected. cbn [get_json_silent].
  destruct (truthy v) eqn:Ht; [|by left]. cbn [negb].
  unfold lift, mbind, M_bind.
  destruct v as [|b|z|f|s|l|d]; try discriminate;
    try (right; split; [reflexivity|]; eexists; split; reflexivity).
  - cbn [contains]. destruct (is_infix "start_date" s); [|by left].
    destruct (is_infix "end_date" s); [|by left].
    right. split; [reflexivity|]. eexists. split; reflexivity.
  - cbn [contains]. destruct (existsb (is_str "start_date") l); [|by left].
    destruct (existsb (is_str "end_date") l); [|by left].
    right. split; [reflexivity|]. eexists. split; reflexivity.
Qed.

(** X2: the answers of the handler.  Whenever it returns, the status
    is 200, 400 or 500.  A 500 is only returned to an object carrying both
    dates: its body is "An error occurred: " followed by the text of the
    exception that the extractor or the loader raised, and the error line
    with the same text is the last event of the run. *)
Theorem status_500_reports_a_client_failure
    (env : Env) (body : RequestBody) (t : list event) (msg : string) (status : Z) :
  run (job env body) = (t, inr (msg, status)) ->
  (status = 200 \/ status = 400 \/ status = 500) /\
  (status = 500 ->
   exists d vs ve e,
     body = Json (PyDict d) /\ carries_dates d vs ve /\
     msg = "An error occurred: " +:+ exn_str e /\
     last t = Some (Print ("Error during job execution: " +:+ exn_str e)) /\
     (snd (run (fetch env vs ve)) = inl e \/
      exists rows,
        snd (run (fetch env vs ve)) = inr rows /\ rows <> [] /\
        snd (run (load env rows)) = inl e)).
Proof.
  intros Hrun.
  assert (forall (x : event) (l : list event) (y : event),
             last (x :: l ++ [y]) = Some y) as Hlast.
  { intros x l y. change (x :: l ++ [y]) with ((x :: l) ++ [y]).
    apply last_snoc. }
  destruct body as [| |v].
  { injection Hrun as <- <- <-. split; [by right; left|discriminate]. }
  { injection Hrun as <- <- <-. split; [by right; left|discriminate]. }
  destruct (is_object v) eqn:Hobj.
  2:{ destruct (run_job_non_object env v Hobj) as [H|(_ & e & H & _)];
        rewrite H in Hrun; [|discriminate].
      injection Hrun as <- <- <-. split; [by right; left|discriminate]. }
  destruct v as [| | | | | |d]; try discriminate.
  destruct (object_dates d) as [Hd|(vs & ve & Hd)].
  { rewrite (object_lacking_a_date env d Hd) in Hrun.
    injection Hrun as <- <- <-. split; [by right; left|discriminate]. }
  rewrite (run_job_validated py_repr env d vs ve Hd) in Hrun.
  destruct (run (fetch env vs ve)) as [tf [e|[|row rows]]] eqn:Hf.
  - injection Hrun as <- <- <-. split; [by right; right|]. intros _.
    exists d, vs, ve, e. split; [reflexivity|]. split; [exact Hd|].
    split; [reflexivity|]. split; [apply Hlast|left; by rewrite Hf].
  - injection Hrun as <- <- <-. split; [by left|discriminate].
  - destruct (run (load env (row :: rows))) as [tl [e|u]] eqn:Hl.
    + injection Hrun as <- <- <-. split; [by right; right|]. intros _.
      exists d, vs, ve, e. split; [reflexivity|]. split; [exact Hd|].
      split; [reflexivity|]. split.
      * rewrite app_assoc. apply Hlast.
      * right. exists (row :: rows). by rewrite Hf, Hl.
    + injection Hrun as <- <- <-. split; [by left|discriminate].
Qed.

(** X1: a 400 means that nothing was done.  A request without a body,
    with a body that does not parse, with a falsy payload ([null],
    [false], [0], an empty string, list or object) or with an object
    lacking one of the dates is answered 400 with the fixed message
    before anything is printed or called; and a 400 is never the answer
    to an object carrying both dates, whatever the clients do. *)
Theorem a_400_means_nothing_was_done (env : Env) (body : RequestBody) :
  (body = Absent \/ body = Unparsable \/
   (exists v, body = Json v /\ truthy v = false) \/
   (exists d, body = Json (PyDict d) /\
              (d !! "start_date" = None \/ d !! "end_date" = None)) ->
   run (job env body) = ([], inr (invalid_request_message, 400))) /\
  (forall t msg,
      run (job env body) = (t, inr (msg, 400)) ->
      t = [] /\ msg = invalid_request_message /\
      forall d vs ve, body = Json (PyDict d) -> ~ carries_dates d vs ve).
Proof.
  split.
  - intros [->|[->|[(v & -> & Hv)|(d & -> & Hd)]]]; try reflexivity.
    + unfold run, run_job, request_rejected. cbn [get_json_silent].
      by rewrite Hv.
    + by apply object_lacking_a_date.
  - intros t msg Hrun. destruct body as [| |v].
    + injection Hrun as <- <-. by repeat split.
    + injection Hrun as <- <-. by repeat split.
    + destruct (is_object v) eqn:Hobj.
      * destruct v as [| | | | | |d]; try discriminate.
        destruct (object_dates d) as [Hd|(vs & ve & Hd)].
        -- rewrite (object_lacking_a_date env d Hd) in Hrun.
           injection Hrun as <- <-. split; [reflexivity|]. split; [reflexivity|].
           intros d' vs ve [= <-] [Hs He]. destruct Hd; congruence.
        -- destruct (run_job_answers env d vs ve Hd) as (rest & b & s & Heq & Hst).
           rewrite Heq in Hrun. injection Hrun as _ _ Hs. lia.
      * destruct (run_job_non_object env v Hobj) as [H|(_ & e & H & _)];
          rewrite H in Hrun; [|discriminate].
        injection Hrun as <- <-. split; [reflexivity|]. split; [reflexivity|].
        intros d vs ve [= ->]. discriminate.
Qed.

(** X3: a payload that is not a JSON object is never processed.
    Nothing is printed and no client is called; a falsy value is answered
    400; a truthy one is either answered 400 or makes the handler raise
    [TypeError]; and a value on which the membership test itself fails
    (a number, [true]) always makes it raise, with that very error. *)
Theorem non_object_payloads_are_never_processed (env : Env) (v : pyval) :
  is_object v = false ->
  fst (run (job env (Json v))) = [] /\
  (if truthy v
   then snd (run (job env (Json v))) = inr (invalid_request_message, 400) \/
        exists e, snd (run (job env (Json v))) = inl e /\
                  exn_class e = "TypeError"
   else snd (run (job env (Json v))) = inr (invalid_request_message, 400)) /\
  (forall e, truthy v = true -> contains "start_date" v = inl e ->
             snd (run (job env (Json v))) = inl e).
Proof.
  intros Hobj. split; [|split].
  - by destruct (run_job_non_object env v Hobj) as [->|(_ & e & -> & _)].
  - destruct (run_job_non_object env v Hobj) as [H|(Ht & e & H & Hcls)].
    + rewrite H. destruct (truthy v); [by left|reflexivity].
    + rewrite H, Ht. right. by exists e.
  - intros e Ht Hc. by rewrite (membership_error_escapes py_repr env v e Ht Hc).
Qed.

(** X4: a string or a list is judged by what it mentions, not by what
    it is: a JSON string is turned away with 400 unless both field
    names occur in it as substrings, a JSON list unless both names are
    among its elements; when both occur the subscript raises
    [TypeError] and the handler answers nothing. *)
Theorem text_and_array_payloads_pass_by_mention (env : Env) :
  (forall s : string,
      if is_infix "start_date" s && is_infix "end_date" s
      then exists e, run (job env (Json (PyStr s))) = ([], inl e) /\
                     exn_class e = "TypeError"
      else run (job env (Json (PyStr s))) = ([], inr (invalid_request_message, 400))) /\
  (forall l : list pyval,
      if existsb (is_str "start_date") l && existsb (is_str "end_date") l
      then exists e, run (job env (Json (PyList l))) = ([], inl e) /\
                     exn_class e = "TypeError"
      else run (job env (Json (PyList l))) = ([], inr (invalid_request_message, 400))).
Proof.
  split.
  - intros s. unfold run, run_job, request_rejected. cbn [get_json_silent].
    destruct s as [|c s]; [reflexivity|].
    cbn [truthy String.eqb negb contains]. unfold lift, mbind, M_bind.
    destruct (is_infix "start_date" (String c s)); [|reflexivity].
    destruct (is_infix "end_date" (String c s)); [|reflexivity].
    eexists. split; reflexivity.
  - intros l. unfold run, run_job, request_rejected. cbn [get_json_silent].
    destruct l as [|x l]; [reflexivity|].
    cbn [truthy negb contains]. unfold lift, mbind, M_bind.
    destruct (existsb (is_str "start_date") (x :: l)); [|reflexivity].
    destruct (existsb (is_str "end_date") (x :: l)); [|reflexivity].
    eexists. split; reflexivity.
Qed.

(** X5: of a JSON object only the two dates are read: two objects that
    agree on [start_date] and on [end_date] (present or not) are handled
    identically, whatever else they hold. *)
Theorem other_fields_are_ignored (env : Env) (d1 d2 : gmap string pyval) :
  d1 !! "start_date" = d2 !! "start_date" ->
  d1 !! "end_date" = d2 !! "end_date" ->
  run (job env (Json (PyDict d1))) = run (job env (Json (PyDict d2))).
Proof.
  intros Hs He.
  destruct (object_dates d1) as [Hd|(vs & ve & Hd)].
  - rewrite (object_lacking_a_date env d1 Hd).
    rewrite Hs, He in Hd. by rewrite (object_lacking_a_date env d2 Hd).
  - rewrite (run_job_validated py_repr env d1 vs ve Hd).
    destruct Hd as [H1 H2]. rewrite Hs in H1. rewrite He in H2.
    by rewrite (run_job_validated py_repr env d2 vs ve (conj H1 H2)).
Qed.

(** X6: nothing is printed and no client is touched until validation is
    passed: a run that leaves any trace at all was given a JSON object
    carrying both dates, and its trace begins with the start line (the
    customer and the two dates as they format) followed by the
    construction of the advertising client. *)
Theorem nothing_happens_before_validation (env : Env) (body : RequestBody) :
  fst (run (job env body)) = [] \/
  exists d vs ve rest,
    body = Json (PyDict d) /\ carries_dates d vs ve /\
    fst (run (job env body))
    = Print ("Starting job for customer " +:+ fmt (of_environ (ADS_CUSTOMER_ID env))
             +:+ " from " +:+ fmt vs +:+ " to " +:+ fmt ve)
      :: GetService (ADS_CONFIG_STRING env) :: rest.
Proof.
  destruct body as [| |v]; [by left|by left|].
  destruct (is_object v) eqn:Hobj.
  - destruct v as [| | | | | |d]; try discriminate.
    destruct (object_dates d) as [Hd|(vs & ve & Hd)].
    + left. by rewrite (object_lacking_a_date env d Hd).
    + right. destruct (run_job_answers env d vs ve Hd) as (rest & b & s & -> & _).
      by exists d, vs, ve, rest.
  - left. destruct (run_job_non_object env v Hobj) as [->|(_ & e & -> & _)];
      reflexivity.
Qed.

(** X7: a 200 is never returned on a failure: when the handler answers
    200, the payload was an object carrying both dates, the extractor
    returned, and either it returned no row, the warehouse was not
    called and the body says so, or the warehouse was called once with
    exactly the extracted rows, reported no error, and the body carries
    their number. *)
Theorem status_200_means_loaded_or_nothing_to_load
    (env : Env) (body : RequestBody) (t : list event) (msg : string) :
  run (job env body) = (t, inr (msg, 200)) ->
  exists d vs ve rows,
    body = Json (PyDict d) /\ carries_dates d vs ve /\
    snd (run (fetch env vs ve)) = inr rows /\
    (rows = [] /\
     vendor_calls t = [client_call_of env; search_call_of py_repr env vs ve] /\
     msg = "Successfully completed. No data to load."
     \/
     rows <> [] /\
     insert_rows_json env (table_id py_repr env) rows = inr [] /\
     vendor_calls t = [client_call_of env; search_call_of py_repr env vs ve;
                       InsertRowsJson (table_id py_repr env) rows] /\
     msg = "Success: Loaded " +:+ str_int (len rows) +:+ " rows.").
Proof.
  intros Hrun. destruct body as [| |v]; try discriminate.
  destruct (is_object v) eqn:Hobj.
  2:{ destruct (run_job_non_object env v Hobj) as [H|(_ & e & H & _)];
        rewrite H in Hrun; discriminate. }
  destruct v as [| | | | | |d]; try discriminate.
  destruct (object_dates d) as [Hd|(vs & ve & Hd)].
  { rewrite (object_lacking_a_date env d Hd) in Hrun. discriminate. }
  exists d, vs, ve.
  rewrite (run_job_validated py_repr env d vs ve Hd), fetch_run in Hrun.
  rewrite fetch_run.
  destruct (get_service env _) as [e|[]]; [discriminate|].
  destruct (search_stream env _ _) as [e|s]; [discriminate|].
  cbn [snd]. destruct (snd (for_stream s [] [])) as [e|[|row rows]];
    [discriminate| |].
  - injection Hrun as <- <-. exists []. split; [reflexivity|]. split; [exact Hd|].
    split; [reflexivity|]. left. by repeat split.
  - rewrite load_run in Hrun. exists (row :: rows).
    split; [reflexivity|]. split; [exact Hd|]. split; [reflexivity|]. right.
    destruct (insert_rows_json env _ (row :: rows)) as [e|[|err errs]];
      [discriminate| |discriminate].
    injection Hrun as <- <-. by repeat split.
Qed.

(** X8: whatever the payload and whatever the clients answer, the vendor
    calls of a run are an initial part of: build the advertising client,
    submit the query, insert into the warehouse.  Each is made at most
    once, the warehouse is written only after the query has been made,
    and what is inserted is the non-empty list of rows the extractor
    returned, into the configured table. *)
Theorem clients_are_called_in_order (env : Env) (body : RequestBody) :
  let made := vendor_calls (fst (run (job env body))) in
  made = [] \/
  exists d vs ve,
    body = Json (PyDict d) /\ carries_dates d vs ve /\
    (made = [GetService (ADS_CONFIG_STRING env)] \/
     made = [GetService (ADS_CONFIG_STRING env);
             SearchStream (ADS_CUSTOMER_ID env) (query vs ve)] \/
     exists rows,
       made = [GetService (ADS_CONFIG_STRING env);
               SearchStream (ADS_CUSTOMER_ID env) (query vs ve);
               InsertRowsJson (table_id py_repr env) rows] /\
       rows <> [] /\ snd (run (fetch env vs ve)) = inr rows).
Proof.
  cbv zeta. destruct body as [| |v]; [by left|by left|].
  destruct (is_object v) eqn:Hobj.
  2:{ left. by destruct (run_job_non_object env v Hobj) as [->|(_ & e & -> & _)]. }
  destruct v as [| | | | | |d]; try discriminate.
  destruct (object_dates d) as [Hd|(vs & ve & Hd)].
  { left. by rewrite (object_lacking_a_date env d Hd). }
  right. exists d, vs, ve. split; [reflexivity|]. split; [exact Hd|].
  rewrite (run_job_validated py_repr env d vs ve Hd), !fetch_run.
  unfold client_call_of, search_call_of.
  destruct (get_service env _) as [e|[]]; [by left|].
  destruct (search_stream env _ _) as [e|s]; [by right; left|].
  cbn [snd]. destruct (snd (for_stream s [] [])) as [e|[|row rows]];
    [by right; left|by right; left|].
  right; right. exists (row :: rows). rewrite load_run. unfold insert_call_of.
  destruct (insert_rows_json env _ (row :: rows)) as [e|[|err errs]];
    by repeat split.
Qed.

End Validation.

(* ================================================================= *)
(** ** Further properties of the extractor and of the loader *)

Section Pipeline.
Variable py_repr : pyval -> string.

Local Abbreviation fmt := (format py_repr).
Local Abbreviation fetch := (fetch_google_ads_data py_repr).
Local Abbreviation load := (load_data_to_bigquery py_repr).
Local Abbreviation job := (run_job py_repr).
Local Abbreviation query := (gaql_query py_repr).

(** When the division returns, it returns the binary64 quotient. *)
Lemma truediv_value (micros : Z) (c : spec_float) :
  truediv micros 1000000 = inr c -> c = cost_of micros.
Proof.
  unfold truediv, cost_of. change (1000000 =? 0) with false. cbv iota.
  destruct (SFdiv _ _ _ _); by intros [= <-].
Qed.

Lemma to_row_value (row : Ads.GoogleAdsRow) (t t' : list event) (d : Row) :
  to_row row t = (t', inr d) -> d = warehouse_row row.
Proof.
  unfold to_row, lift, mbind, M_bind.
  destruct (truediv _ _) as [e|c] eqn:Hc; [discriminate|].
  apply truediv_value in Hc. subst c. by intros [= _ <-].
Qed.

Lemma for_results_value (rs : list Ads.GoogleAdsRow) :
  forall acc t t' rows,
    for_results rs acc t = (t', inr rows) -> rows = acc ++ map warehouse_row rs.
Proof.
  induction rs as [|row rs IH]; intros acc t t' rows; cbn [for_results map].
  - intros [= _ <-]. by rewrite app_nil_r.
  - unfold mbind, M_bind.
    destruct (to_row row t) as [t1 [e|d]] eqn:Hrow; [discriminate|].
    apply to_row_value in Hrow. subst d. intros H.
    apply IH in H. by rewrite <- app_assoc in H.
Qed.

(** Rows come back only from a stream that was read to its end. *)
Lemma for_stream_value (s : Ads.Stream) :
  forall acc t t' rows,
    for_stream s acc t = (t', inr rows) ->
    exists bs, s = Ads.stream_of bs /\
               rows = acc ++ map warehouse_row (all_results bs).
Proof.
  induction s as [|b rest IH|e]; intros acc t t' rows; cbn [for_stream].
  - intros [= _ <-]. exists []. by rewrite app_nil_r.
  - unfold mbind, M_bind.
    destruct (for_results (Ads.results b) acc t) as [t1 [e|acc']] eqn:Hb;
      [discriminate|].
    apply for_results_value in Hb. subst acc'. intros H.
    apply IH in H as (bs & -> & ->). exists (b :: bs). split; [reflexivity|].
    unfold all_results. cbn [map List.concat]. by rewrite map_app, app_assoc.
  - discriminate.
Qed.

(** A stream that fails after some batches makes the loops raise. *)
Lemma for_stream_failing (bs : list Ads.Batch) (e : exn) :
  Forall Ads.wf_batch bs ->
  forall acc t, for_stream (failing_after bs e) acc t = (t, inl e).
Proof.
  induction 1 as [|b bs Hb _ IH]; intros acc t; cbn [failing_after foldr for_stream].
  - reflexivity.
  - erewrite bind_run; [|by apply for_results_wf]. apply IH.
Qed.

(** X9: extraction is all or nothing.  Whenever the extractor returns,
    the platform's stream was read to its end, and the rows returned are
    one warehouse row per record of every batch, in order; the client was
    built and the query submitted, once each. *)
Theorem extraction_is_all_or_nothing
    (env : Env) (vs ve : pyval) (tf : list event) (rows : list Row) :
  run (fetch env vs ve) = (tf, inr rows) ->
  exists bs,
    search_stream env (ADS_CUSTOMER_ID env) (query vs ve) = inr (Ads.stream_of bs) /\
    rows = map warehouse_row (all_results bs) /\
    tf = [GetService (ADS_CONFIG_STRING env);
          SearchStream (ADS_CUSTOMER_ID env) (query vs ve)].
Proof.
  rewrite fetch_run.
  destruct (get_service env _) as [e|[]]; [discriminate|].
  destruct (search_stream env _ _) as [e|s]; [discriminate|].
  destruct (for_stream s [] []) as [t' [e|rows']] eqn:Hs; cbn [snd]; [discriminate|].
  intros [= <- <-]. apply for_stream_value in Hs as (bs & -> & ->).
  by exists bs.
Qed.

(** X10: when the platform fails in the middle of the stream, the rows
    read so far are discarded: the extractor raises the platform's
    error, the handler answers 500 with its text, and the warehouse is
    not called. *)
Theorem failure_in_mid_stream_discards_the_rows
    (env : Env) (d : gmap string pyval) (vs ve : pyval)
    (bs : list Ads.Batch) (e : exn) :
  carries_dates d vs ve ->
  Forall Ads.wf_batch bs ->
  get_service env (ADS_CONFIG_STRING env) = inr tt ->
  search_stream env (ADS_CUSTOMER_ID env) (query vs ve) = inr (failing_after bs e) ->
  snd (run (fetch env vs ve)) = inl e /\
  run (job env (Json (PyDict d)))
  = ([job_started py_repr env vs ve;
      GetService (ADS_CONFIG_STRING env);
      SearchStream (ADS_CUSTOMER_ID env) (query vs ve);
      Print ("Error during job execution: " +:+ exn_str e)],
     inr ("An error occurred: " +:+ exn_str e, 500)).
Proof.
  intros Hd Hwf Hc Hs.
  assert (run (fetch env vs ve)
          = ([client_call_of env; search_call_of py_repr env vs ve], inl e)) as Hf.
  { rewrite fetch_run, Hc, Hs. by rewrite (for_stream_failing bs e Hwf [] []). }
  split; [by rewrite Hf|].
  by rewrite (run_job_validated py_repr env d vs ve Hd), Hf.
Qed.

(** X11: a successful run, from end to end.  For a validated request,
    batches holding at least one record and a warehouse that reports no
    error, the run is exactly: the start line, the client, the query,
    one insert of all the rows into the configured table, the success
    line; and the answer is 200 with the number of records in the body. *)
Theorem successful_run_from_end_to_end
    (env : Env) (d : gmap string pyval) (vs ve : pyval) (bs : list Ads.Batch) :
  carries_dates d vs ve ->
  Forall Ads.wf_batch bs ->
  all_results bs <> [] ->
  get_service env (ADS_CONFIG_STRING env) = inr tt ->
  search_stream env (ADS_CUSTOMER_ID env) (query vs ve) = inr (Ads.stream_of bs) ->
  insert_rows_json env (table_id py_repr env) (map warehouse_row (all_results bs))
  = inr [] ->
  let rows := map warehouse_row (all_results bs) in
  let N := str_int (Z.of_nat (length (all_results bs))) in
  run (job env (Json (PyDict d)))
  = ([job_started py_repr env vs ve;
      GetService (ADS_CONFIG_STRING env);
      SearchStream (ADS_CUSTOMER_ID env) (query vs ve);
      InsertRowsJson (table_id py_repr env) rows;
      Print ("Successfully loaded " +:+ N +:+ " rows into BigQuery.")],
     inr ("Success: Loaded " +:+ N +:+ " rows.", 200)).
Proof.
  intros Hd Hwf Hne Hc Hs Hins rows N. fold rows in Hins.
  rewrite (run_job_validated py_repr env d vs ve Hd).
  rewrite (fetch_of_batches py_repr env vs ve bs Hwf Hc Hs). fold rows.
  assert (len rows = Z.of_nat (length (all_results bs))) as Hlen
    by (unfold len, rows; by rewrite length_map).
  destruct rows as [|row rows'] eqn:Hrows.
  { subst rows. destruct (all_results bs); [done|discriminate]. }
  rewrite load_run, Hins. cbn [format]. rewrite Hlen. reflexivity.
Qed.

(** X12: the loader by itself.  It calls the warehouse once, with the
    table [project.dataset.table] and the rows unchanged, even when there
    is no row; it returns exactly when the call returns an empty error
    list; an exception of the client is passed on as it is; and reported
    errors are printed before the loader raises. *)
Theorem loader_returns_iff_no_error_is_reported (env : Env) (rows : list Row) :
  let outcome := run (load env rows) in
  (exists rest, fst outcome = InsertRowsJson (table_id py_repr env) rows :: rest /\
                calls is_loader_call rest = 0%nat) /\
  (snd outcome = inr tt <->
   insert_rows_json env (table_id py_repr env) rows = inr []) /\
  (forall e, insert_rows_json env (table_id py_repr env) rows = inl e ->
             outcome = ([InsertRowsJson (table_id py_repr env) rows], inl e)) /\
  (forall errors, insert_rows_json env (table_id py_repr env) rows = inr errors ->
                  errors <> [] ->
                  exists e, snd outcome = inl e /\ exn_class e = "Exception" /\
                            fst outcome
                            = [InsertRowsJson (table_id py_repr env) rows;
                               Print ("Encountered errors while inserting rows: "
                                      +:+ fmt (PyList errors))]).
Proof.
  cbv zeta. rewrite load_run. unfold insert_call_of.
  destruct (insert_rows_json env _ rows) as [e|[|err errs]]; cbn [fst snd].
  - split; [by eexists|]. split; [split; discriminate|].
    split; [by intros ? [= ->]|discriminate].
  - split; [by eexists|]. split; [done|]. split; [discriminate|].
    by intros ? [= <-].
  - split; [by eexists|]. split; [split; discriminate|]. split; [discriminate|].
    intros ? [= <-] _. eexists. by repeat split.
Qed.

End Pipeline.

(* ================================================================= *)
(** ** The theorems at work on the demo deployment *)

Ltac demo_dates := split; vm_compute; reflexivity.

Ltac demo_wf :=
  unfold Demo.two_records; constructor; [|constructor];
  unfold Ads.wf_batch; cbn [Ads.results];
  repeat (constructor; [unfold Ads.wf_row, Ads.int64; cbn; lia|]);
  constructor.

Lemma cost_is_micros_over_a_million_witness :
  exists rows before after,
    fst (run (run_job Demo.repr Demo.env_ok Demo.request))
    = before ++ InsertRowsJson "acme.google_ads_data.p_CampaignStats" rows :: after /\
    exists w1 w2, rows = [w1; w2] /\
                  w1 !! "cost" = Some (PyFloat float_1_5) /\
                  w2 !! "cost" = Some (PyFloat float_2_0).
Proof.
  destruct (cost_is_micros_over_a_million Demo.repr Demo.env_ok Demo.payload
              Demo.start_date Demo.end_date Demo.two_records)
    as (rows & before & after & Hfst & _ & _ & _ & Htwo & _).
  - demo_dates.
  - demo_wf.
  - reflexivity.
  - reflexivity.
  - vm_compute. discriminate.
  - exists rows, before, after. split; [exact Hfst|].
    apply (Htwo (Demo.record "2024-01-02" 1500000) (Demo.record "2024-01-03" 2000000));
      reflexivity.
Defined.

Lemma no_records_no_load_witness :
  exists t,
    run (run_job Demo.repr Demo.env_empty Demo.request)
    = (t, inr ("Successfully completed. No data to load.", 200)) /\
    calls is_loader_call t = 0%nat.
Proof.
  apply (no_records_no_load Demo.repr Demo.env_empty Demo.payload
           Demo.start_date Demo.end_date [ {| Ads.results := [] |} ]).
  - demo_dates.
  - reflexivity.
  - reflexivity.
  - constructor; [reflexivity|constructor].
Defined.

Lemma insert_errors_fail_the_job_witness :
  exists t body,
    run (run_job Demo.repr Demo.env_rejected Demo.request) = (t, inr (body, 500)) /\
    is_infix (Demo.repr (PyList [Demo.row_error])) body = true.
Proof.
  destruct (insert_errors_fail_the_job Demo.repr Demo.env_rejected Demo.payload
              Demo.start_date Demo.end_date
              (fst (run (fetch_google_ads_data Demo.repr Demo.env_rejected
                           Demo.start_date Demo.end_date)))
              (map warehouse_row (all_results Demo.two_records))
              [Demo.row_error])
    as (_ & t & body & Hrun & _ & Hin & _).
  - demo_dates.
  - vm_compute. reflexivity.
  - vm_compute. discriminate.
  - reflexivity.
  - discriminate.
  - exists t, body. split; [exact Hrun|exact Hin].
Defined.

Lemma success_reports_row_count_witness :
  exists t N,
    run (run_job Demo.repr Demo.env_ok Demo.request)
    = (t, inr ("Success: Loaded " +:+ N +:+ " rows.", 200)) /\
    parse_int N = Some 2.
Proof.
  apply (success_reports_row_count Demo.repr Demo.env_ok Demo.payload
           Demo.start_date Demo.end_date
           (fst (run (fetch_google_ads_data Demo.repr Demo.env_ok
                        Demo.start_date Demo.end_date)))
           (map warehouse_row (all_results Demo.two_records))).
  - demo_dates.
  - vm_compute. reflexivity.
  - vm_compute. discriminate.
  - reflexivity.
Defined.

Lemma extractor_preserves_platform_order_witness :
  exists rows,
    snd (run (fetch_google_ads_data Demo.repr Demo.env_ok Demo.start_date Demo.end_date))
    = inr rows /\
    length rows = 2%nat.
Proof.
  destruct (extractor_preserves_platform_order Demo.repr Demo.env_ok
              Demo.start_date Demo.end_date Demo.two_records)
    as (rows & Hrows & _ & Hlen & _).
  - demo_wf.
  - reflexivity.
  - reflexivity.
  - exists rows. split; [exact Hrows|exact Hlen].
Defined.

Lemma row_has_the_six_warehouse_fields_witness :
  exists d,
    to_row (Demo.record "2024-01-02" 1500000) [] = ([], inr d) /\
    dom d = warehouse_fields /\
    d !! "device" = Some (PyStr "MOBILE").
Proof.
  destruct (row_has_the_six_warehouse_fields (Demo.record "2024-01-02" 1500000) [])
    as (d & Hrow & Hdom & _ & _ & _ & _ & _ & Hdev & _).
  - unfold Ads.wf_row, Ads.int64. cbn. lia.
  - exists d. split; [exact Hrow|]. split; [exact Hdom|exact Hdev].
Defined.

Lemma query_interpolates_the_dates_witness :
  is_infix "WHERE segments.date BETWEEN '2024-01-01' AND '2024-01-31'"
    (gaql_query Demo.repr Demo.start_date Demo.end_date) = true /\
  words (gaql_query Demo.repr Demo.start_date Demo.end_date)
  = [ "SELECT"; "campaign.id,"; "segments.date,"; "metrics.cost_micros,";
      "segments.device,"; "segments.ad_network_type,"; "customer.id";
      "FROM"; "campaign";
      "WHERE"; "segments.date"; "BETWEEN"; "'2024-01-01'"; "AND"; "'2024-01-31'" ].
Proof.
  destruct (query_interpolates_the_dates Demo.repr Demo.env_ok Demo.payload
              Demo.start_date Demo.end_date)
    as (_ & _ & Hin & _ & Hwords).
  - demo_dates.
  - reflexivity.
  - split; [apply (Hin "2024-01-01" "2024-01-31"); reflexivity|].
    rewrite Hwords. vm_compute. reflexivity.
Defined.

Lemma failures_are_answered_500_witness :
  exists t,
    run (run_job Demo.repr Demo.env_no_client Demo.request)
    = (t, inr ("An error occurred: invalid developer token", 500)) /\
    calls is_loader_call t = 0%nat.
Proof.
  destruct (failures_are_answered_500 Demo.repr Demo.env_no_client Demo.payload
              Demo.start_date Demo.end_date)
    as (Hclient & Hfetch & _).
  - demo_dates.
  - destruct (Hfetch _ Demo.bad_credentials (Hclient Demo.bad_credentials eq_refl))
      as (t & Hrun & Hload & _).
    exists t. split; [exact Hrun|exact Hload].
Defined.

(* ================================================================= *)
(** ** The further properties at work on the demo deployment *)

Lemma non_object_payloads_are_never_processed_witness :
  snd (run (run_job Demo.repr Demo.env_ok (Json (PyFloat float_1_5))))
  = inl (TypeError "argument of type 'float' is not iterable").
Proof.
  destruct (non_object_payloads_are_never_processed Demo.repr Demo.env_ok
              (PyFloat float_1_5))
    as (_ & _ & Hraise).
  - reflexivity.
  - apply Hraise; reflexivity.
Defined.

Lemma status_500_reports_a_client_failure_witness :
  exists d vs ve e,
    Demo.request = Json (PyDict d) /\ carries_dates d vs ve /\
    "An error occurred: invalid developer token"
    = "An error occurred: " +:+ exn_str e.
Proof.
  destruct (status_500_reports_a_client_failure Demo.repr Demo.env_no_client
              Demo.request
              (fst (run (run_job Demo.repr Demo.env_no_client Demo.request)))
              "An error occurred: invalid developer token" 500)
    as (_ & Hfailed).
  - vm_compute. reflexivity.
  - destruct (Hfailed eq_refl) as (d & vs & ve & e & Hbody & Hd & Hmsg & _).
    exists d, vs, ve, e. split; [exact Hbody|]. split; [exact Hd|exact Hmsg].
Defined.

Lemma other_fields_are_ignored_witness :
  run (run_job Demo.repr Demo.env_ok
         (Json (PyDict (<["dry_run" := PyBool true]> Demo.payload))))
  = run (run_job Demo.repr Demo.env_ok Demo.request).
Proof.
  apply (other_fields_are_ignored Demo.repr Demo.env_ok
           (<["dry_run" := PyBool true]> Demo.payload) Demo.payload).
  - vm_compute. reflexivity.
  - vm_compute. reflexivity.
Defined.

Lemma status_200_means_loaded_or_nothing_to_load_witness :
  exists d vs ve rows,
    Demo.request = Json (PyDict d) /\ carries_dates d vs ve /\
    snd (run (fetch_google_ads_data Demo.repr Demo.env_ok vs ve)) = inr rows.
Proof.
  destruct (status_200_means_loaded_or_nothing_to_load Demo.repr Demo.env_ok
              Demo.request
              (fst (run (run_job Demo.repr Demo.env_ok Demo.request)))
              "Success: Loaded 2 rows.")
    as (d & vs & ve & rows & Hbody & Hd & Hrows & _).
  - vm_compute. reflexivity.
  - exists d, vs, ve, rows. split; [exact Hbody|]. split; [exact Hd|exact Hrows].
Defined.

Lemma extraction_is_all_or_nothing_witness :
  exists bs,
    search_stream Demo.env_ok (ADS_CUSTOMER_ID Demo.env_ok)
      (gaql_query Demo.repr Demo.start_date Demo.end_date)
    = inr (Ads.stream_of bs) /\
    map warehouse_row (all_results Demo.two_records)
    = map warehouse_row (all_results bs).
Proof.
  destruct (extraction_is_all_or_nothing Demo.repr Demo.env_ok
              Demo.start_date Demo.end_date
              (fst (run (fetch_google_ads_data Demo.repr Demo.env_ok
                           Demo.start_date Demo.end_date)))
              (map warehouse_row (all_results Demo.two_records)))
    as (bs & Hs & Hrows & _).
  - vm_compute. reflexivity.
  - exists bs. split; [exact Hs|exact Hrows].
Defined.

Lemma failure_in_mid_stream_discards_the_rows_witness :
  let reset := Exn "ServiceUnavailable" "503 stream reset" in
  let env := Demo.env (inr tt) (inr (failing_after Demo.two_records reset)) (inr []) in
  exists t,
    run (run_job Demo.repr env Demo.request)
    = (t, inr ("An error occurred: 503 stream reset", 500)) /\
    calls is_loader_call t = 0%nat.
Proof.
  intros reset env.
  destruct (failure_in_mid_stream_discards_the_rows Demo.repr env Demo.payload
              Demo.start_date Demo.end_date Demo.two_records reset)
    as (_ & Hrun).
  - demo_dates.
  - demo_wf.
  - reflexivity.
  - reflexivity.
  - eexists. split; [exact Hrun|reflexivity].
Defined.

Lemma successful_run_from_end_to_end_witness :
  snd (run (run_job Demo.repr Demo.env_ok Demo.request))
  = inr ("Success: Loaded 2 rows.", 200) /\
  length (fst (run (run_job Demo.repr Demo.env_ok Demo.request))) = 5%nat.
Proof.
  pose proof (successful_run_from_end_to_end Demo.repr Demo.env_ok Demo.payload
                Demo.start_date Demo.end_date Demo.two_records) as Hrun.
  cbv zeta in Hrun. unfold Demo.request. rewrite Hrun.
  - split; reflexivity.
  - demo_dates.
  - demo_wf.
  - vm_compute. discriminate.
  - reflexivity.
  - reflexivity.
  - reflexivity.
Defined.

Lemma cost_is_a_normal_float_witness :
  valid_binary prec emax (cost_of 1500000) = true.
Proof.
  apply (cost_is_a_normal_float 1500000). unfold Ads.int64. lia.
Defined.

Lemma cost_is_exact_when_representable_witness :
  exists q, SF2Q (cost_of 1500000) = Some q /\
            (q * inject_Z 1000000 == inject_Z 1500000)%Q.
Proof.
  destruct cost_is_exact_when_representable as [Hexact _].
  apply (Hexact 1500000 3 1).
  - unfold Ads.int64. lia.
  - lia.
  - reflexivity.
  - reflexivity.
Defined.

Lemma cost_of_an_opposite_amount_witness :
  cost_of (- 1500000) = SFopp (cost_of 1500000).
Proof.
  apply (cost_of_an_opposite_amount 1500000). lia.
Defined.

Lemma different_amounts_cost_differently_witness :
  cost_of 1500000 <> cost_of 1500001.
Proof.
  apply (different_amounts_cost_differently 1500000 1500001).
  - reflexivity.
  - reflexivity.
  - lia.
Defined.

Lemma cost_keeps_the_order_of_amounts_witness :
  exists qm qn,
    SF2Q (cost_of 1500000) = Some qm /\ SF2Q (cost_of 2000000) = Some qn /\
    (qm <= qn)%Q.
Proof.
  apply (cost_keeps_the_order_of_amounts 1500000 2000000).
  - unfold Ads.int64. lia.
  - unfold Ads.int64. lia.
  - lia.
Defined.

Lemma a_400_means_nothing_was_done_witness :
  run (run_job Demo.repr Demo.env_ok Absent) = ([], inr (invalid_request_message, 400)).
Proof.
  apply (a_400_means_nothing_was_done Demo.repr Demo.env_ok Absent).
  left. reflexivity.
Defined.
